(** * The multi-container endpoint notebook, as a program over an external SDK

    The repository is one Jupyter notebook ([sagemaker-notebook.ipynb]).  Its
    code cells are embedded here one by one as computations in a small
    state-and-exception monad:

    - the state holds the notebook's global variables and the trace of the
      calls made into the SDK layer (sagemaker, boto3, pip, imports), each
      with the result it produced;
    - the SDK layer and the cloud platform behind it are not part of the
      repository: they are a parameter ([Runtime]) that answers every call,
      given the history so far, with a value or with an exception;
    - an exception raised by a call, or by a local operation, aborts the
      rest of the run unless a [try]/[except] of the notebook catches it.

    A statement that only displays a value ([print], the trailing expression
    of a cell) is reduced to the variables it reads and the SDK calls it
    makes; what it writes to the output is left out. *)

From stdpp Require Import base strings gmap list pretty.

Open Scope string_scope.
Open Scope list_scope.
Set Warnings "-register-all".

(** ** Python values exchanged with the SDK layer *)

(** What a call may return.  [VOther] stands for any object the notebook only
    stores or prints (floats, streams, SDK handles), named by its repr. *)
Inductive value : Type :=
| VNone
| VInt (n : Z)
| VStr (s : string)
| VBytes (b : string)
| VList (l : list value)
| VDict (d : list (string * value))
| VOther (repr : string).

(** ** Exceptions *)

(** An exception is known by its class and the classes it derives from. *)
Record exn : Type := Exn { exn_type : string; exn_bases : list string }.

#[global] Instance exn_eq_dec : EqDecision exn.
Proof. solve_decision. Defined.

(** [isinstance(e, cls)], the test an [except cls:] clause performs. *)
Definition isinstance (e : exn) (cls : string) : bool :=
  bool_decide (cls = exn_type e ∨ cls ∈ exn_bases e).

Definition AssertionError : exn := Exn "AssertionError" ["Exception"; "BaseException"].
Definition KeyError : exn :=
  Exn "KeyError" ["LookupError"; "Exception"; "BaseException"].
Definition TypeError : exn := Exn "TypeError" ["Exception"; "BaseException"].
Definition AttributeError : exn := Exn "AttributeError" ["Exception"; "BaseException"].
Definition NameError : exn := Exn "NameError" ["Exception"; "BaseException"].

(** ** Local operations on values *)

Fixpoint dict_get (k : string) (d : list (string * value)) : option value :=
  match d with
  | [] => None
  | (k', v) :: d' => if decide (k = k') then Some v else dict_get k d'
  end.

(** [v[k]] with a string key. *)
Definition subscript (v : value) (k : string) : exn + value :=
  match v with
  | VDict d => match dict_get k d with
               | Some x => inr x
               | None => inl KeyError
               end
  | _ => inl TypeError
  end.

(** [v >= s] for a string literal [s]: defined between two strings, where it
    is the lexicographic order of the characters; a [TypeError] otherwise. *)
Definition py_ge (v : value) (s : string) : exn + bool :=
  match v with
  | VStr x => inr (String.leb s x)
  | _ => inl TypeError
  end.

(** [v is None] *)
Definition is_None (v : value) : bool :=
  match v with VNone => true | _ => false end.

(** ** Objects and request shapes of the notebook *)

(** [sagemaker.Session(default_bucket=...)] *)
Record Session : Type := { session_default_bucket : value }.

(** [boto3.client(service)] *)
Record Client : Type := { service_name : string }.

(** [HuggingFacePredictor(endpoint_name)] *)
Record Predictor : Type := { endpoint_name : string }.

(** A container descriptor: the dict literals [englishModel], [germanModel]. *)
Record ContainerDefinition : Type := {
  Image : value;
  ContainerHostname : string;
  Environment : gmap string string
}.

(** [{"Mode": ...}] *)
Record InferenceExecutionConfig : Type := { Mode : string }.

(** An entry of [ProductionVariants]. *)
Record ProductionVariant : Type := {
  VariantName : string;
  ModelName : string;
  InitialInstanceCount : Z;
  InstanceType : string
}.

(** ** Calls into the SDK layer *)

(** One constructor per operation the notebook invokes, with the arguments
    the notebook passes.  [TargetContainerHostname] is the optional routing
    parameter of [invoke_endpoint]. *)
Inductive call : Type :=
| pip_install (args : string)
| import_module (name : string)
| sagemaker_version
| Session_new (default_bucket : value)
| Session_default_bucket (self : Session)
| Session_boto_region_name (self : Session)
| get_execution_role
| boto3_client (service : string)
| get_role (self : Client) (RoleName : string)
| image_uris_retrieve (framework : string) (region : value) (version : string)
    (image_scope : string) (base_framework_version : string)
    (py_version : string) (container_version : string) (instance_type : string)
| create_model (self : Client) (ModelName : string)
    (InferenceExecutionConfig : InferenceExecutionConfig)
    (ExecutionRoleArn : value) (Containers : list ContainerDefinition)
| create_endpoint_config (self : Client) (EndpointConfigName : string)
    (ProductionVariants : list ProductionVariant)
| create_endpoint (self : Client) (EndpointName : string)
    (EndpointConfigName : string)
| invoke_endpoint (self : Client) (EndpointName : string)
    (ContentType : string) (Accept : string)
    (TargetContainerHostname : option string) (Body : string)
| StreamingBody_read (self : value)
| HuggingFacePredictor_new (endpoint_name : string)
| predict (self : Predictor) (data : gmap string string)
    (initial_args : gmap string string)
| delete_model (self : Predictor)
| delete_endpoint (self : Predictor).

(** A completed call: what was asked and what came back. *)
Definition event : Type := call * (exn + value).

(** ** The runtime the notebook runs against *)

(** Everything outside the repository: the answer of the SDK layer to each
    call (which may depend on all earlier calls and answers), and the pure
    functions of the Python standard library the notebook applies. *)
Class Runtime : Type := {
  respond : list event → call → exn + value;
  json_dumps : gmap string string → string;
  json_loads : string → exn + value;
  bytes_decode : string → exn + string
}.

(** ** Global variables of the notebook *)

Inductive var : Type :=
| sess | sagemaker_session_bucket | role | iam | region | sm_client
| hf_inference_dlc | englishModel | germanModel | inferenceExecutionConfig
| deployment_name | instance_type | endpoint
| english_payload | german_payload
| invoke_client | response | result
| predictor | en_res | de_res | i.

#[global] Instance var_eq_dec : EqDecision var.
Proof. solve_decision. Defined.

(** The type of the values each variable is assigned. *)
Definition type_of (x : var) : Type :=
  match x with
  | sess => Session
  | iam | sm_client | invoke_client => Client
  | englishModel | germanModel => ContainerDefinition
  | inferenceExecutionConfig => InferenceExecutionConfig
  | deployment_name | instance_type => string
  | english_payload | german_payload => gmap string string
  | predictor => Predictor
  | i => nat
  | sagemaker_session_bucket | role | region | hf_inference_dlc | endpoint
  | response | result | en_res | de_res => value
  end.

(** The namespace: a variable is unbound until its first assignment. *)
Definition globals : Type := ∀ x : var, option (type_of x).

Definition no_globals : globals := λ _, None.

Definition assign (x : var) (v : type_of x) (g : globals) : globals :=
  λ y, match decide (x = y) with
       | left e => Some (eq_rect x type_of v y e)
       | right _ => g y
       end.

(** ** The monad of notebook code *)

Record state : Type := State { vars : globals; trace : list event }.

Definition initial_state : state := State no_globals [].

Definition M (A : Type) : Type := state → state * (exn + A).

Definition ret {A} (a : A) : M A := λ s, (s, inr a).

Definition raise {A} (e : exn) : M A := λ s, (s, inl e).

Definition bind {A B} (m : M A) (k : A → M B) : M B :=
  λ s, match m s with
       | (s', inr a) => k a s'
       | (s', inl e) => (s', inl e)
       end.

Notation "'let!' x ':=' m 'in' k" := (bind m (λ x, k))
  (at level 10, x pattern, m at level 200, k at level 200, only parsing).
Notation "m ';;' k" := (bind m (λ _, k))
  (at level 100, k at level 200, right associativity, only parsing).

(** A local operation that may raise. *)
Definition lift {A} (r : exn + A) : M A := λ s, (s, r).

(** [x = v] *)
Definition store (x : var) (v : type_of x) : M unit :=
  λ s, (State (assign x v (vars s)) (trace s), inr tt).

(** Reading [x]; a [NameError] while it is unbound. *)
Definition load (x : var) : M (type_of x) :=
  λ s, match vars s x with
       | Some v => (s, inr v)
       | None => (s, inl NameError)
       end.

(** [try: body / except cls: handler] *)
Definition try_except {A} (body : M A) (cls : string) (handler : M A) : M A :=
  λ s, match body s with
       | (s', inr a) => (s', inr a)
       | (s', inl e) => if isinstance e cls then handler s' else (s', inl e)
       end.

(** [for x in l: body] *)
Fixpoint for_in (x : var) (l : list (type_of x)) (body : M unit) : M unit :=
  match l with
  | [] => ret tt
  | v :: l' => store x v ;; body ;; for_in x l' body
  end.

(** [range(n)] *)
Definition range (n : nat) : list nat := seq 0 n.

Section Notebook.

Context {RT : Runtime}.

(** A call into the SDK layer: it blocks until the answer is there, and the
    completed call is appended to the trace.  Arguments go to the SDK layer
    by value: a call answers, it does not change what the notebook's
    variables hold. *)
Definition perform (c : call) : M value :=
  λ s, let r := respond (trace s) c in
       (State (vars s) (trace s ++ [(c, r)]), r).

(** *** Cell: [%pip install sagemaker --upgrade] *)

Definition cell_install : M unit :=
  perform (pip_install "sagemaker --upgrade") ;; ret tt.

(** *** Cell: the version check

    [import sagemaker]
    [assert sagemaker.__version__ >= "2.75.0"] *)

Definition cell_version_check : M unit :=
  perform (import_module "sagemaker") ;;
  let! v := perform sagemaker_version in
  let! ok := lift (py_ge v "2.75.0") in
  if ok : bool then ret tt else raise AssertionError.

(** *** Cell: session, bucket and execution role *)

(** The [try] statement of the cell, and the body of its [except] clause:
    [try: role = sagemaker.get_execution_role()]
    [except ValueError:]
    [    iam = boto3.client('iam')]
    [    role = iam.get_role(RoleName='sagemaker_execution_role')['Role']['Arn']] *)
Definition role_fallback : M unit :=
  perform (boto3_client "iam") ;;
  store iam {| service_name := "iam" |} ;;
  let! c := load iam in
  let! r := perform (get_role c "sagemaker_execution_role") in
  let! r_role := lift (subscript r "Role") in
  let! arn := lift (subscript r_role "Arn") in
  store role arn.

Definition resolve_role : M unit :=
  try_except
    (let! r := perform get_execution_role in
     store role r)
    "ValueError"
    role_fallback.

Definition cell_permissions : M unit :=
  perform (import_module "sagemaker") ;;
  perform (import_module "boto3") ;;
  perform (Session_new VNone) ;;
  store sess {| session_default_bucket := VNone |} ;;
  store sagemaker_session_bucket VNone ;;
  let! b := load sagemaker_session_bucket in
  let! s := load sess in
  (* [sess] holds a session object, so [sess is not None] is true *)
  (if is_None b && true
   then let! v := perform (Session_default_bucket s) in
        store sagemaker_session_bucket v
   else ret tt) ;;
  resolve_role ;;
  let! b := load sagemaker_session_bucket in
  perform (Session_new b) ;;
  store sess {| session_default_bucket := b |} ;;
  let! s := load sess in
  let! r := perform (Session_boto_region_name s) in
  store region r ;;
  perform (boto3_client "sagemaker") ;;
  store sm_client {| service_name := "sagemaker" |} ;;
  load role ;;
  let! s := load sess in
  perform (Session_default_bucket s) ;;
  load region ;;
  ret tt.

(** *** Cell: the container image *)

Definition cell_image : M unit :=
  perform (import_module "sagemaker.image_uris") ;;
  let! r := load region in
  let! uri := perform (image_uris_retrieve "huggingface" r "4.12.3" "inference"
                         "pytorch1.9.1" "py38" "ubuntu20.04" "ml.c5.xlarge") in
  store hf_inference_dlc uri ;;
  load hf_inference_dlc ;;
  ret tt.

(** *** Cell: the two models and the execution mode *)

Definition cell_models : M unit :=
  let! img := load hf_inference_dlc in
  store englishModel
    {| Image := img;
       ContainerHostname := "englishModel";
       Environment :=
         <["HF_MODEL_ID" := "distilbert-base-uncased-finetuned-sst-2-english"]>
         (<["HF_TASK" := "text-classification"]> ∅) |} ;;
  let! img := load hf_inference_dlc in
  store germanModel
    {| Image := img;
       ContainerHostname := "germanModel";
       Environment :=
         <["HF_MODEL_ID" := "oliverguhr/german-sentiment-bert"]>
         (<["HF_TASK" := "text-classification"]> ∅) |} ;;
  store inferenceExecutionConfig {| Mode := "Direct" |}.

(** *** Cell: model, endpoint configuration, endpoint *)

Definition cell_deploy : M unit :=
  store deployment_name "multi-container-sentiment" ;;
  store instance_type "ml.c5.4xlarge" ;;
  let! c := load sm_client in
  let! d := load deployment_name in
  let! cfg := load inferenceExecutionConfig in
  let! r := load role in
  let! en := load englishModel in
  let! de := load germanModel in
  perform (create_model c (d +:+ "-model") cfg r [en; de]) ;;
  let! c := load sm_client in
  let! d := load deployment_name in
  let! d' := load deployment_name in
  let! t := load instance_type in
  perform (create_endpoint_config c (d +:+ "-config")
             [ {| VariantName := "AllTraffic";
                  ModelName := d' +:+ "-model";
                  InitialInstanceCount := 1;
                  InstanceType := t |} ]) ;;
  let! c := load sm_client in
  let! d := load deployment_name in
  let! d' := load deployment_name in
  let! ep := perform (create_endpoint c (d +:+ "-ep") (d' +:+ "-config")) in
  store endpoint ep.

(** *** Cell: the two payloads *)

Definition cell_payloads : M unit :=
  store english_payload
    {[ "inputs" := "This is a great way for saving money and optimizing my resources." ]} ;;
  store german_payload
    {[ "inputs" := "Das wird uns sehr helfen unsere Ressourcen effizient zu nutzen." ]}.

(** *** Cells: one request to each container with [boto3] *)

(** [json.loads(response['Body'].read().decode())] *)
Definition read_result : M value :=
  let! r := load response in
  let! body := lift (subscript r "Body") in
  let! raw := perform (StreamingBody_read body) in
  let! text := match raw with
               | VBytes b => lift (bytes_decode b)
               | _ => raise AttributeError
               end in
  lift (json_loads text).

Definition cell_invoke_english : M unit :=
  perform (import_module "json") ;;
  perform (import_module "boto3") ;;
  perform (boto3_client "sagemaker-runtime") ;;
  store invoke_client {| service_name := "sagemaker-runtime" |} ;;
  let! c := load invoke_client in
  let! d := load deployment_name in
  let! p := load english_payload in
  let! r := perform (invoke_endpoint c (d +:+ "-ep") "application/json"
                       "application/json" (Some "englishModel") (json_dumps p)) in
  store response r ;;
  let! v := read_result in
  store result v ;;
  load result ;;
  ret tt.

Definition cell_invoke_german : M unit :=
  perform (import_module "json") ;;
  perform (import_module "boto3") ;;
  perform (boto3_client "sagemaker-runtime") ;;
  store invoke_client {| service_name := "sagemaker-runtime" |} ;;
  let! c := load invoke_client in
  let! d := load deployment_name in
  let! p := load german_payload in
  let! r := perform (invoke_endpoint c (d +:+ "-ep") "application/json"
                       "application/json" (Some "germanModel") (json_dumps p)) in
  store response r ;;
  let! v := read_result in
  store result v ;;
  load result ;;
  ret tt.

(** *** Cell: one request to each container with [HuggingFacePredictor] *)

Definition predict_english : M value :=
  let! p := load predictor in
  let! x := load english_payload in
  perform (predict p x {[ "TargetContainerHostname" := "englishModel" ]}).

Definition predict_german : M value :=
  let! p := load predictor in
  let! x := load german_payload in
  perform (predict p x {[ "TargetContainerHostname" := "germanModel" ]}).

Definition cell_predictor : M unit :=
  perform (import_module "sagemaker.huggingface") ;;
  let! d := load deployment_name in
  perform (HuggingFacePredictor_new (d +:+ "-ep")) ;;
  store predictor {| endpoint_name := d +:+ "-ep" |} ;;
  let! r := predict_english in
  store en_res r ;;
  load en_res ;;
  let! r := predict_german in
  store de_res r ;;
  load de_res ;;
  ret tt.

(** *** Cell: the load test *)

Definition load_test_body : M unit :=
  predict_english ;;
  predict_german ;;
  ret tt.

Definition cell_load_test : M unit :=
  for_in i (range 1000) load_test_body.

(** *** Cell: teardown *)

Definition cell_teardown : M unit :=
  let! p := load predictor in
  perform (delete_model p) ;;
  let! p := load predictor in
  perform (delete_endpoint p) ;;
  ret tt.

(** *** The notebook, run from top to bottom *)

Definition notebook : M unit :=
  cell_install ;;
  cell_version_check ;;
  cell_permissions ;;
  cell_image ;;
  cell_models ;;
  cell_deploy ;;
  cell_payloads ;;
  cell_invoke_english ;;
  cell_invoke_german ;;
  cell_predictor ;;
  cell_load_test ;;
  cell_teardown.

(** A run starts with no variable bound and no call made. *)
Definition run : state * (exn + unit) := notebook initial_state.

End Notebook.

(** * Vocabulary of the statements *)

(** Nothing below is notebook code: these definitions name what the
    statements about the notebook talk about. *)

(** ** The requests, as the notebook's literals spell them *)

Definition english_payload_value : gmap string string :=
  {[ "inputs" := "This is a great way for saving money and optimizing my resources." ]}.

Definition german_payload_value : gmap string string :=
  {[ "inputs" := "Das wird uns sehr helfen unsere Ressourcen effizient zu nutzen." ]}.

Definition english_container (img : value) : ContainerDefinition :=
  {| Image := img;
     ContainerHostname := "englishModel";
     Environment :=
       <["HF_MODEL_ID" := "distilbert-base-uncased-finetuned-sst-2-english"]>
       (<["HF_TASK" := "text-classification"]> ∅) |}.

Definition german_container (img : value) : ContainerDefinition :=
  {| Image := img;
     ContainerHostname := "germanModel";
     Environment :=
       <["HF_MODEL_ID" := "oliverguhr/german-sentiment-bert"]>
       (<["HF_TASK" := "text-classification"]> ∅) |}.

Definition sagemaker_client : Client := {| service_name := "sagemaker" |}.
Definition runtime_client : Client := {| service_name := "sagemaker-runtime" |}.
Definition the_predictor : Predictor :=
  {| endpoint_name := "multi-container-sentiment-ep" |}.

Definition retrieve_call (rg : value) : call :=
  image_uris_retrieve "huggingface" rg "4.12.3" "inference" "pytorch1.9.1"
    "py38" "ubuntu20.04" "ml.c5.xlarge".

Definition model_call (r img : value) : call :=
  create_model sagemaker_client "multi-container-sentiment-model"
    {| Mode := "Direct" |} r [english_container img; german_container img].

Definition config_call : call :=
  create_endpoint_config sagemaker_client "multi-container-sentiment-config"
    [ {| VariantName := "AllTraffic";
         ModelName := "multi-container-sentiment-model";
         InitialInstanceCount := 1;
         InstanceType := "ml.c5.4xlarge" |} ].

Definition endpoint_call : call :=
  create_endpoint sagemaker_client "multi-container-sentiment-ep"
    "multi-container-sentiment-config".

Definition predict_call (host : string) (payload : gmap string string) : call :=
  predict the_predictor payload {[ "TargetContainerHostname" := host ]}.

(** ** Classifying calls *)

Definition is_retrieval (c : call) : bool :=
  match c with image_uris_retrieve _ _ _ _ _ _ _ _ => true | _ => false end.

(** The calls that create a resource, and those that tear resources down. *)
Definition is_creation (c : call) : bool :=
  match c with
  | create_model _ _ _ _ _ | create_endpoint_config _ _ _
  | create_endpoint _ _ _ => true
  | _ => false
  end.

Definition is_teardown (c : call) : bool :=
  match c with
  | delete_model _ | delete_endpoint _ => true
  | _ => false
  end.

(** The data-plane calls, with the routing field each one carries (if any). *)
Definition routing_field (c : call) : option (option string) :=
  match c with
  | invoke_endpoint _ _ _ _ t _ => Some t
  | predict _ _ args => Some (args !! "TargetContainerHostname")
  | _ => None
  end.

(** The payload a data-plane call carries: the serialized body handed to
    [invoke_endpoint], or the object handed to [predict]. *)
Definition payload_of (c : call) : option (string + gmap string string) :=
  match c with
  | invoke_endpoint _ _ _ _ _ body => Some (inl body)
  | predict _ data _ => Some (inr data)
  | _ => None
  end.

Definition retrievals (tr : list event) : list event :=
  List.filter (λ ev, is_retrieval ev.1) tr.

(** The completed calls, in order, that create or tear down resources. *)
Definition resource_events (tr : list event) : list event :=
  List.filter (λ ev, is_creation ev.1 || is_teardown ev.1) tr.

(** The container hostnames declared by the models created so far. *)
Definition model_hostnames (tr : list event) : list string :=
  tr ≫= λ ev, match ev with
              | (create_model _ _ _ _ cs, inr _) => ContainerHostname <$> cs
              | _ => []
              end.

(** All three resources have been created, in this order, and nothing has
    been torn down. *)
Definition deployed (tr : list event) : Prop :=
  ∃ r img v1 v2 v3,
    resource_events tr = [ (model_call r img, inr v1); (config_call, inr v2);
                           (endpoint_call, inr v3) ].

(** ** Traces in which every call is an expected one *)

Inductive trace_ok (φ : list event → call → Prop) : list event → Prop :=
| trace_ok_nil : trace_ok φ []
| trace_ok_snoc tr c r :
    trace_ok φ tr → φ tr c → trace_ok φ (tr ++ [(c, r)]).

Section Expected.

Context {RT : Runtime}.

(** What the notebook may ask after the history [pre]: each request is pinned
    down to the literals above, and to what came back earlier. *)
Definition expected (pre : list event) (c : call) : Prop :=
  match c with
  | image_uris_retrieve _ _ _ _ _ _ _ _ =>
      retrievals pre = [] ∧ ∃ rg, c = retrieve_call rg
  | create_model _ _ _ _ _ =>
      ∃ r img rg, c = model_call r img ∧
        retrievals pre = [(retrieve_call rg, inr img)] ∧
        resource_events pre = []
  | create_endpoint_config _ _ _ =>
      c = config_call ∧
      ∃ r img v, resource_events pre = [(model_call r img, inr v)]
  | create_endpoint _ _ _ =>
      c = endpoint_call ∧
      ∃ r img v1 v2,
        resource_events pre =
          [(model_call r img, inr v1); (config_call, inr v2)]
  | invoke_endpoint _ _ _ _ _ _ =>
      deployed pre ∧
      (c = invoke_endpoint runtime_client "multi-container-sentiment-ep"
             "application/json" "application/json" (Some "englishModel")
             (json_dumps english_payload_value) ∨
       c = invoke_endpoint runtime_client "multi-container-sentiment-ep"
             "application/json" "application/json" (Some "germanModel")
             (json_dumps german_payload_value))
  | predict _ _ _ =>
      deployed pre ∧
      (c = predict_call "englishModel" english_payload_value ∨
       c = predict_call "germanModel" german_payload_value)
  | delete_model p => deployed pre ∧ p = the_predictor
  | delete_endpoint p =>
      p = the_predictor ∧
      ∃ r img v1 v2 v3 v4,
        resource_events pre =
          [ (model_call r img, inr v1); (config_call, inr v2);
            (endpoint_call, inr v3); (delete_model the_predictor, inr v4) ]
  | _ => True
  end.

End Expected.

(** ** Where a run stands *)

Section Stages.

Context {RT : Runtime}.

(** Where a run stands between two cells. *)

Definition at_start (s : state) : Prop :=
  trace_ok expected (trace s) ∧
  retrievals (trace s) = [] ∧ resource_events (trace s) = [].

Definition at_image (r rg : value) (s : state) : Prop :=
  at_start s ∧
  vars s role = Some r ∧ vars s region = Some rg ∧
  vars s sm_client = Some sagemaker_client.

Definition at_models (r rg img : value) (s : state) : Prop :=
  trace_ok expected (trace s) ∧
  retrievals (trace s) = [(retrieve_call rg, inr img)] ∧
  resource_events (trace s) = [] ∧
  vars s role = Some r ∧ vars s sm_client = Some sagemaker_client ∧
  vars s hf_inference_dlc = Some img.

Definition at_deploy (r rg img : value) (s : state) : Prop :=
  at_models r rg img s ∧
  vars s englishModel = Some (english_container img) ∧
  vars s germanModel = Some (german_container img) ∧
  vars s inferenceExecutionConfig = Some {| Mode := "Direct" |}.

Definition at_payloads (s : state) : Prop :=
  trace_ok expected (trace s) ∧ deployed (trace s) ∧
  vars s deployment_name = Some "multi-container-sentiment".

Definition at_invoke (s : state) : Prop :=
  at_payloads s ∧
  vars s english_payload = Some english_payload_value ∧
  vars s german_payload = Some german_payload_value.

Definition at_load_test (s : state) : Prop :=
  at_invoke s ∧ vars s predictor = Some the_predictor.

Definition at_end (s : state) : Prop :=
  trace_ok expected (trace s) ∧
  ∃ r img v1 v2 v3 v4 v5,
    resource_events (trace s) =
      [ (model_call r img, inr v1); (config_call, inr v2);
        (endpoint_call, inr v3); (delete_model the_predictor, inr v4);
        (delete_endpoint the_predictor, inr v5) ].

(** When a run stops on an exception, its trace is still as expected. *)
Definition stopped (_ : exn) (s : state) : Prop :=
  trace_ok expected (trace s).

End Stages.

(** ** Weakest preconditions *)

(** [wp m Q E s]: run from [s], [m] either returns a value and a state that
    satisfy [Q], or raises an exception in a state that satisfy [E]. *)
Definition wp {A} (m : M A) (Q : A → state → Prop) (E : exn → state → Prop)
    (s : state) : Prop :=
  match m s with
  | (s', inr a) => Q a s'
  | (s', inl e) => E e s'
  end.

(** ** The deployment cell on its own *)

(** The three calls of the deployment cell, for given values of the
    variables it reads. *)
Definition deploy_calls (c : Client) (cfg : InferenceExecutionConfig)
    (r : value) (en de : ContainerDefinition) : list call :=
  [ create_model c "multi-container-sentiment-model" cfg r [en; de];
    create_endpoint_config c "multi-container-sentiment-config"
      [ {| VariantName := "AllTraffic";
           ModelName := "multi-container-sentiment-model";
           InitialInstanceCount := 1;
           InstanceType := "ml.c5.4xlarge" |} ];
    create_endpoint c "multi-container-sentiment-ep"
      "multi-container-sentiment-config" ].

(** ** The load-test cell on its own *)

(** The two requests of one iteration, for given values of the variables the
    loop body reads. *)
Definition round (p : Predictor) (en de : gmap string string) : list call :=
  [ predict p en {[ "TargetContainerHostname" := "englishModel" ]};
    predict p de {[ "TargetContainerHostname" := "germanModel" ]} ].

(** The number of data-plane calls routed to the container [h]. *)
Definition requests_to (h : string) (cs : list call) : nat :=
  length (List.filter (λ c, bool_decide (routing_field c = Some (Some h))) cs).

(** [answered tr evs]: the calls [evs] were made one after the other from
    the history [tr] -- each one got the answer of the SDK layer on the
    history that holds every earlier call together with its answer. *)
Fixpoint answered `{RT : Runtime} (tr evs : list event) : Prop :=
  match evs with
  | [] => True
  | ev :: evs' => ev.2 = respond tr ev.1 ∧ answered (tr ++ [ev]) evs'
  end.

(** ** Which failures a piece of notebook code lets through *)

(** The one failure the notebook handles: a [ValueError] (or an exception
    derived from it) raised by [sagemaker.get_execution_role()]. *)
Definition handled (ev : event) : Prop :=
  match ev with
  | (c, inl e) => c = get_execution_role ∧ isinstance e "ValueError" = true
  | (_, inr _) => True
  end.

(** [propagates m]: among the calls [m] makes, a failed one is either the
    handled one, or the last call made, and then [m] raises its exception. *)
Definition propagates {A} (m : M A) : Prop :=
  ∀ s, ∃ evs,
    trace (m s).1 = trace s ++ evs ∧
    match (m s).2 with
    | inr _ => Forall handled evs
    | inl e => Forall handled evs ∨
               ∃ evs' c, evs = evs' ++ [(c, inl e)] ∧ Forall handled evs'
    end.

(** ** Variables a piece of notebook code leaves alone *)

(** [keeps x m]: whatever [m] does, [x] holds afterwards what it held
    before. *)
Definition keeps {A} (x : var) (m : M A) : Prop :=
  ∀ s, vars (m s).1 x = vars s x.

(** The payload a data-plane call carries is [p]: serialized in the body of
    an [invoke_endpoint], as it is in a [predict]. *)
Definition carries `{RT : Runtime} (c : call) (p : gmap string string) : Prop :=
  match payload_of c with
  | Some (inl body) => body = json_dumps p
  | Some (inr data) => data = p
  | None => False
  end.

(** ** The resources of the account *)

(** What lives on the platform is outside the repository.  This module
    records the documented effect on the account's resources of the calls the
    notebook makes, to state what a run leaves behind:
    - [create_model], [create_endpoint_config] and [create_endpoint] add the
      resource they name;
    - [Predictor.delete_model()] deletes the models named by the production
      variants of the configuration of the predictor's endpoint;
    - [Predictor.delete_endpoint()], called without arguments, deletes the
      configuration of the predictor's endpoint and then the endpoint
      ([delete_endpoint_config] defaults to [True]);
    - no other call of the notebook touches models, endpoint configurations
      or endpoints. *)
Module Cloud.

Record t : Type := {
  models : gset string;
  endpoint_configs : gmap string (list string);
  endpoints : gmap string string
}.

Definition empty : t :=
  {| models := ∅; endpoint_configs := ∅; endpoints := ∅ |}.

Definition effect (c : call) (σ : t) : t :=
  match c with
  | create_model _ name _ _ _ =>
      {| models := {[ name ]} ∪ models σ;
         endpoint_configs := endpoint_configs σ;
         endpoints := endpoints σ |}
  | create_endpoint_config _ name variants =>
      {| models := models σ;
         endpoint_configs := <[ name := ModelName <$> variants ]> (endpoint_configs σ);
         endpoints := endpoints σ |}
  | create_endpoint _ name config =>
      {| models := models σ;
         endpoint_configs := endpoint_configs σ;
         endpoints := <[ name := config ]> (endpoints σ) |}
  | delete_model p =>
      match endpoints σ !! endpoint_name p with
      | Some config =>
          match endpoint_configs σ !! config with
          | Some names =>
              {| models := models σ ∖ list_to_set names;
                 endpoint_configs := endpoint_configs σ;
                 endpoints := endpoints σ |}
          | None => σ
          end
      | None => σ
      end
  | delete_endpoint p =>
      match endpoints σ !! endpoint_name p with
      | Some config =>
          {| models := models σ;
             endpoint_configs := delete config (endpoint_configs σ);
             endpoints := delete (endpoint_name p) (endpoints σ) |}
      | None => σ
      end
  | _ => σ
  end.

(** The account after the completed calls of a trace; a call that raised
    has changed nothing. *)
Definition after (σ : t) (tr : list event) : t :=
  foldl (λ σ ev, match ev with
                 | (c, inr _) => effect c σ
                 | (_, inl _) => σ
                 end) σ tr.

End Cloud.

(** ** What the platform does with a request *)

(** Which containers process a request is decided by the platform, outside
    the repository.  This module records the meaning of the two execution
    modes as the comment of the notebook states it ("Direct for direct
    invocation of each container, or Serial to use containers as an
    inference pipeline"):
    - in mode ["Direct"] a request is processed by the one container that
      its [TargetContainerHostname] names, and is refused when it names none
      of the containers of the model;
    - in mode ["Serial"] a request goes through all the containers of the
      model, in their order. *)

Module Hosting.

(** The containers that process a request, in order; [None] when the
    request is refused. *)
Definition handlers (cfg : InferenceExecutionConfig)
    (cs : list ContainerDefinition) (target : option string)
    : option (list string) :=
  if decide (Mode cfg = "Direct") then
    match target with
    | Some h =>
        if decide (h ∈ ContainerHostname <$> cs) then Some [h] else None
    | None => None
    end
  else if decide (Mode cfg = "Serial") then Some (ContainerHostname <$> cs)
  else None.

End Hosting.

(** ** Version numbers, read as numbers *)

(** A version as the list of its numeric components, how it is written, and
    the order of versions as numbers.  The notebook does not use these: they
    are what its string comparison is set against. *)
Definition version_string (parts : list nat) : string :=
  String.concat "." (pretty <$> parts).

Fixpoint version_le (v w : list nat) : bool :=
  match v, w with
  | [], _ => true
  | _ :: _, [] => false
  | a :: v', b :: w' =>
      if decide (a < b) then true
      else if decide (a = b) then version_le v' w'
      else false
  end.

(** ** Where the arguments of a call come from *)

Definition iam_client : Client := {| service_name := "iam" |}.

(** The session the permissions cell creates first, without a bucket. *)
Definition first_session : Session := {| session_default_bucket := VNone |}.

Definition is_invocation (c : call) : bool :=
  match c with invoke_endpoint _ _ _ _ _ _ => true | _ => false end.

(** The endpoint a call addresses, by its name. *)
Definition endpoint_of (c : call) : option string :=
  match c with
  | invoke_endpoint _ ep _ _ _ _ => Some ep
  | predict p _ _ | delete_model p | delete_endpoint p => Some (endpoint_name p)
  | _ => None
  end.

(** [b] is what [default_bucket()] answered for the first session. *)
Definition bucket_source (tr : list event) (b : value) : Prop :=
  (Session_default_bucket first_session, inr b) ∈ tr.

(** [x] is a session created earlier. *)
Definition session_source (tr : list event) (x : Session) : Prop :=
  ∃ h, (Session_new (session_default_bucket x), inr h) ∈ tr.

(** [rg] is what [boto_region_name] answered for a session created with the
    default bucket. *)
Definition region_source (tr : list event) (rg : value) : Prop :=
  ∃ x, (Session_boto_region_name x, inr rg) ∈ tr ∧
       session_source tr x ∧ bucket_source tr (session_default_bucket x).

(** [r] is what the role lookup answered, or the ARN in the answer of the
    IAM lookup. *)
Definition role_source (tr : list event) (r : value) : Prop :=
  (get_execution_role, inr r) ∈ tr ∨
  ∃ v v', (get_role iam_client "sagemaker_execution_role", inr v) ∈ tr ∧
          subscript v "Role" = inr v' ∧ subscript v' "Arn" = inr r.

(** [img] is what the image lookup answered for such a region. *)
Definition image_source (tr : list event) (img : value) : Prop :=
  ∃ rg, (retrieve_call rg, inr img) ∈ tr ∧ region_source tr rg.

(** What the notebook may pass to a call after the history [pre], by where
    the arguments come from. *)
Definition provenance (pre : list event) (c : call) : Prop :=
  match c with
  | Session_new b => b = VNone ∨ bucket_source pre b
  | Session_default_bucket x =>
      session_source pre x ∧
      (x = first_session ∨ bucket_source pre (session_default_bucket x))
  | Session_boto_region_name x =>
      session_source pre x ∧ bucket_source pre (session_default_bucket x)
  | get_role self name =>
      self = iam_client ∧ name = "sagemaker_execution_role" ∧
      ∃ e, (get_execution_role, inl e) ∈ pre ∧ isinstance e "ValueError" = true
  | image_uris_retrieve _ rg _ _ _ _ _ _ => region_source pre rg
  | create_model _ _ _ r cs =>
      role_source pre r ∧ Forall (λ c, image_source pre (Image c)) cs
  | StreamingBody_read body =>
      ∃ pre' c r, pre = pre' ++ [(c, inr r)] ∧ is_invocation c = true ∧
                  subscript r "Body" = inr body
  | _ => True
  end.

(** What the variables that carry a value from one cell to the next may
    hold after the history [tr]. *)
Definition store_ok (tr : list event) (x : var) : type_of x → Prop :=
  match x with
  | role => role_source tr
  | region => region_source tr
  | hf_inference_dlc => image_source tr
  | englishModel | germanModel => λ c, image_source tr (Image c)
  | _ => λ _, True
  end.

Definition traced `{RT : Runtime} (s : state) : Prop :=
  trace_ok provenance (trace s) ∧
  ∀ x v, vars s x = Some v → store_ok (trace s) x v.

(** ** The control-plane calls of a run *)

(** The calls that create and tear down resources, in the order the
    notebook makes them. *)
Definition lifecycle (r img : value) : list call :=
  [ model_call r img; config_call; endpoint_call;
    delete_model the_predictor; delete_endpoint the_predictor ].

(** No teardown call has been made. *)
Definition no_teardown (_ : list event) (c : call) : Prop :=
  is_teardown c = false.

Definition untouched `{RT : Runtime} (s : state) : Prop :=
  trace_ok no_teardown (trace s).

(** ** The version check, by minor version *)

(** The minor versions [n] below 1000, other than 75, for which a version
    [2.n....] passes the check. *)
Definition minor_accepted (n : nat) : bool :=
  ((n =? 8) || (n =? 9) || ((76 <=? n) && (n <=? 99)) || (750 <=? n))%nat.

(** ** How a run may stop *)

(** A run stopped on [e] with no teardown call made, or on a teardown call
    that raised [e]. *)
Definition stopped_short `{RT : Runtime} (e : exn) (s : state) : Prop :=
  untouched s ∨
  ∃ pre c, trace s = pre ++ [(c, inl e)] ∧ is_teardown c = true.

(** ** Answers to requests *)

(** What a cell that sends a request to [host] with [boto3] leaves when it
    completes: its last two calls are the request and the [read()] of the
    ["Body"] of its answer, [response] holds the answer, and [result] holds
    what [json.loads] made of the decoded bytes. *)
Definition reads_back `{RT : Runtime} (host : string) (s' : state) : Prop :=
  ∃ pre c r body b text v,
    trace s' = pre ++ [ (c, inr r); (StreamingBody_read body, inr (VBytes b)) ] ∧
    is_invocation c = true ∧ routing_field c = Some (Some host) ∧
    subscript r "Body" = inr body ∧
    bytes_decode b = inr text ∧ json_loads text = inr v ∧
    vars s' response = Some r ∧ vars s' result = Some v.

(** The answer of a completed request can be read: it has a ["Body"]. *)
Definition usable (ev : event) : Prop :=
  match ev with
  | (c, inr r) => is_invocation c = true → ∃ body, subscript r "Body" = inr body
  | (_, inl _) => True
  end.

(** A run stopped on [e] with every answer so far usable, or on the answer
    of its last call, of which [e] is what its ["Body"] raises. *)
Definition stopped_on_answer `{RT : Runtime} (e : exn) (s : state) : Prop :=
  Forall usable (trace s) ∨
  ∃ pre c r, trace s = pre ++ [(c, inr r)] ∧ Forall usable pre ∧
             is_invocation c = true ∧ subscript r "Body" = inl e.

(** ** Counting requests *)

(** So far [a] requests have been routed to the English container and [b]
    to the German one. *)
Definition requests_are `{RT : Runtime} (a b : nat) (s : state) : Prop :=
  requests_to "englishModel" (trace s).*1 = a ∧
  requests_to "germanModel" (trace s).*1 = b.

(** ** Where a run goes on *)


(** ** Sample runtimes *)

(** Concrete answers of the SDK layer, to run the notebook on. *)

(** Two exceptions of the SDK layer: one that is not a [ValueError], and
    the [ValueError] of a role lookup outside a role. *)
Definition ClientError : exn := Exn "ClientError" ["Exception"; "BaseException"].
Definition NotARole : exn := Exn "ValueError" ["Exception"; "BaseException"].

Definition sample_answer (c : call) : value :=
  match c with
  | sagemaker_version => VStr "2.75.0"
  | Session_default_bucket _ => VStr "sagemaker-us-east-1-000000000000"
  | Session_boto_region_name _ => VStr "us-east-1"
  | get_execution_role => VStr "arn:aws:iam::000000000000:role/notebook"
  | get_role _ _ =>
      VDict
        [ ("Role",
           VDict
             [ ("Arn",
                VStr "arn:aws:iam::000000000000:role/sagemaker_execution_role") ]) ]
  | image_uris_retrieve _ _ _ _ _ _ _ _ =>
      VStr "763104351884.dkr.ecr.us-east-1.amazonaws.com/huggingface-pytorch-inference"
  | invoke_endpoint _ _ _ _ _ _ => VDict [("Body", VOther "StreamingBody")]
  | StreamingBody_read _ => VBytes "[]"
  | predict _ _ _ => VList []
  | _ => VNone
  end.

(** The double-quote character, and a rendering of a flat object as JSON
    text. *)
Definition quote : string := String (Ascii.ascii_of_nat 34) "".

Definition sample_dumps (m : gmap string string) : string :=
  "{" +:+ String.concat ", "
            ((λ kv, quote +:+ kv.1 +:+ quote +:+ ": " +:+ quote +:+ kv.2 +:+ quote)
               <$> map_to_list m)
      +:+ "}".

(** The runtime that answers each call with [answer], whatever came
    before. *)
Definition sample_runtime (answer : call → exn + value) : Runtime :=
  {| respond := λ _ c, answer c;
     json_dumps := sample_dumps;
     json_loads := λ _, inr (VList []);
     bytes_decode := λ b, inr b |}.

(** Every call succeeds. *)
Definition rt_ok : Runtime :=
  sample_runtime (λ c, inr (sample_answer c)).

(** The first data-plane call fails. *)
Definition rt_invoke_fails : Runtime :=
  sample_runtime (λ c, match c with
                       | invoke_endpoint _ _ _ _ _ _ => inl ClientError
                       | _ => inr (sample_answer c)
                       end).

(** The role lookup fails with an error that is not a [ValueError]. *)
Definition rt_role_denied : Runtime :=
  sample_runtime (λ c, match c with
                       | get_execution_role => inl ClientError
                       | _ => inr (sample_answer c)
                       end).

(** The role lookup fails with a [ValueError]. *)
Definition rt_not_a_role : Runtime :=
  sample_runtime (λ c, match c with
                       | get_execution_role => inl NotARole
                       | _ => inr (sample_answer c)
                       end).

(** The installed SDK is version 2.100.0. *)
Definition rt_version_2_100 : Runtime :=
  sample_runtime (λ c, match c with
                       | sagemaker_version => inr (VStr "2.100.0")
                       | _ => inr (sample_answer c)
                       end).

(** The model cannot be created. *)
Definition rt_create_model_fails : Runtime :=
  sample_runtime (λ c, match c with
                       | create_model _ _ _ _ _ => inl ClientError
                       | _ => inr (sample_answer c)
                       end).

(** The role lookup fails with a [ValueError], and the model cannot be
    created. *)
Definition rt_fallback_model_fails : Runtime :=
  sample_runtime (λ c, match c with
                       | get_execution_role => inl NotARole
                       | create_model _ _ _ _ _ => inl ClientError
                       | _ => inr (sample_answer c)
                       end).

(** The body of the first answer cannot be read. *)
Definition rt_body_unreadable : Runtime :=
  sample_runtime (λ c, match c with
                       | StreamingBody_read _ => inl ClientError
                       | _ => inr (sample_answer c)
                       end).

(** The answer to a request has no ["Body"]. *)
Definition rt_no_body : Runtime :=
  sample_runtime (λ c, match c with
                       | invoke_endpoint _ _ _ _ _ _ => inr (VDict [])
                       | _ => inr (sample_answer c)
                       end).

(** The image lookup fails. *)
Definition rt_retrieve_fails : Runtime :=
  sample_runtime (λ c, match c with
                       | image_uris_retrieve _ _ _ _ _ _ _ _ => inl ClientError
                       | _ => inr (sample_answer c)
                       end).

(** The state of a run on [rt_ok] when it reaches the deployment cell, and
    when it reaches the load test. *)
Definition before_deploy : state :=
  (@bind unit unit (@cell_install rt_ok) (λ _,
     @bind unit unit (@cell_version_check rt_ok) (λ _,
     @bind unit unit (@cell_permissions rt_ok) (λ _,
     @bind unit unit (@cell_image rt_ok) (λ _, cell_models))))
     initial_state).1.

Definition before_load_test : state :=
  (@bind unit unit (λ s, (before_deploy, inr tt)) (λ _,
     @bind unit unit (@cell_deploy rt_ok) (λ _,
     @bind unit unit cell_payloads (λ _,
     @bind unit unit (@cell_invoke_english rt_ok) (λ _,
     @bind unit unit (@cell_invoke_german rt_ok) (λ _,
     @cell_predictor rt_ok)))))
     initial_state).1.

(** * Reasoning about notebook code *)

(** ** Variables *)

Lemma lookup_assign_eq (x : var) (v : type_of x) (g : globals) :
  assign x v g x = Some v.
Proof.
  unfold assign. destruct (decide (x = x)) as [e | ne]; [| done].
  by rewrite (proof_irrel e eq_refl).
Qed.

Lemma lookup_assign_ne (x y : var) (v : type_of x) (g : globals) :
  x ≠ y → assign x v g y = g y.
Proof. intros ne. unfold assign. by destruct (decide (x = y)). Qed.

(** ** Rules of the weakest precondition *)

Section Rules.

Context {RT : Runtime}.
Context {A B : Type}.
Implicit Types (Q : A → state → Prop) (E : exn → state → Prop) (s : state).

Lemma wp_ret (a : A) Q E s : Q a s → wp (ret a) Q E s.
Proof. done. Qed.

Lemma wp_raise (e : exn) Q E s : E e s → wp (raise e) Q E s.
Proof. done. Qed.

Lemma wp_lift (r : exn + A) Q E s :
  match r with inr a => Q a s | inl e => E e s end → wp (lift r) Q E s.
Proof. done. Qed.

Lemma wp_bind (m : M B) (k : B → M A) Q E s :
  wp m (λ b, wp (k b) Q E) E s → wp (bind m k) Q E s.
Proof. unfold wp, bind. by destruct (m s) as [s' [e | b]]. Qed.

Lemma wp_conseq (m : M A) Q Q' E E' s :
  wp m Q E s →
  (∀ a s', Q a s' → Q' a s') → (∀ e s', E e s' → E' e s') →
  wp m Q' E' s.
Proof. unfold wp. destruct (m s) as [s' [e | a]]; eauto. Qed.

Lemma wp_try_except (body handler : M A) (cls : string) Q E s :
  wp body Q (λ e s', if isinstance e cls then wp handler Q E s' else E e s') s →
  wp (try_except body cls handler) Q E s.
Proof.
  unfold wp, try_except. destruct (body s) as [s' [e | a]]; [| done].
  by destruct (isinstance e cls).
Qed.

End Rules.

Section Rules_state.

Context {RT : Runtime}.
Implicit Types (E : exn → state → Prop) (s : state).

Lemma wp_store (x : var) (v : type_of x) (Q : unit → state → Prop) E s :
  Q tt (State (assign x v (vars s)) (trace s)) → wp (store x v) Q E s.
Proof. done. Qed.

Lemma wp_load (x : var) (v : type_of x) (Q : type_of x → state → Prop) E s :
  vars s x = Some v → Q v s → wp (load x) Q E s.
Proof. unfold wp, load. by intros ->. Qed.

Lemma wp_perform (c : call) (Q : value → state → Prop) E s :
  (∀ r, r = respond (trace s) c →
        match r with
        | inr v => Q v (State (vars s) (trace s ++ [(c, r)]))
        | inl e => E e (State (vars s) (trace s ++ [(c, r)]))
        end) →
  wp (perform c) Q E s.
Proof.
  intros H. unfold wp, perform. cbn.
  specialize (H _ eq_refl). by destruct (respond (trace s) c).
Qed.

Lemma wp_for_in (x : var) (l : list (type_of x)) (body : M unit)
    (I : list (type_of x) → state → Prop) (Q : unit → state → Prop) E s :
  I l s →
  (∀ v l' s', I (v :: l') s' → wp (store x v ;; body) (λ _, I l') E s') →
  (∀ s', I [] s' → Q tt s') →
  wp (for_in x l body) Q E s.
Proof.
  intros Hl Hbody Hend. revert s Hl.
  induction l as [| v l IH]; intros s Hl.
  - by apply Hend.
  - specialize (Hbody v l s Hl). specialize (λ s', IH s').
    cbn [for_in]. unfold wp, bind, store in *. cbn in *.
    destruct (body _) as [s' [e | []]]; [done |]. by apply IH.
Qed.

End Rules_state.

(** ** Traces *)

Lemma list_snoc_cases {A} (l : list A) : l = [] ∨ ∃ l' x, l = l' ++ [x].
Proof.
  induction l as [| x l _] using rev_ind; [ by left | right; by exists l, x ].
Qed.

Lemma trace_ok_elim φ tr pre c r post :
  trace_ok φ tr → tr = pre ++ (c, r) :: post → φ pre c.
Proof.
  intros Hok. revert post.
  induction Hok as [| tr c' r' Hok IH Hc]; intros post Heq.
  - by destruct pre.
  - destruct (list_snoc_cases post) as [-> | (post' & ev & ->)].
    + apply app_inj_tail in Heq as [-> [= -> ->]]. done.
    + rewrite app_comm_cons, app_assoc in Heq.
      apply app_inj_tail in Heq as [-> _]. by eapply IH.
Qed.

(** ** Stepping through notebook code *)

Lemma retrievals_snoc tr c r L :
  retrievals tr = L →
  retrievals (tr ++ [(c, r)]) = L ++ (if is_retrieval c then [(c, r)] else []).
Proof. intros <-. unfold retrievals. rewrite List.filter_app. done. Qed.

Lemma resource_events_snoc tr c r L :
  resource_events tr = L →
  resource_events (tr ++ [(c, r)]) =
    L ++ (if is_creation c || is_teardown c then [(c, r)] else []).
Proof. intros <-. unfold resource_events. rewrite List.filter_app. done. Qed.

Lemma deployed_snoc tr c r :
  is_creation c || is_teardown c = false →
  deployed tr → deployed (tr ++ [(c, r)]).
Proof.
  intros Hc (ro & img & v1 & v2 & v3 & H). exists ro, img, v1, v2, v3.
  rewrite (resource_events_snoc _ _ _ _ H), Hc. done.
Qed.

(** [lookup] reads a variable off a state built by assignments. *)
Ltac lookup :=
  cbn [vars];
  repeat first [ apply lookup_assign_eq
               | rewrite lookup_assign_ne by discriminate ];
  eassumption.

(** [track c r] moves the recorded facts about the trace past one more
    completed call. *)
Ltac track c r :=
  repeat match goal with
    | H : retrievals ?tr = _ |- _ =>
        lazymatch tr with
        | _ ++ [(c, r)] => fail
        | _ => apply (retrievals_snoc tr c r) in H;
               cbn [is_retrieval app] in H
        end
    | H : resource_events ?tr = _ |- _ =>
        lazymatch tr with
        | _ ++ [(c, r)] => fail
        | _ => apply (resource_events_snoc tr c r) in H;
               cbn [is_creation is_teardown orb app] in H
        end
    | H : deployed ?tr |- _ =>
        lazymatch tr with
        | _ ++ [(c, r)] => fail
        | _ => apply (deployed_snoc tr c r eq_refl) in H
        end
    end.

(** [solve_side] closes the conditions left at a call and at the end of a
    piece of code: lookups, equalities between requests, recorded facts. *)
Ltac solve_side :=
  cbn beta; cbn [vars trace];
  repeat first
    [ exact I | eassumption | reflexivity
    | lookup
    | (left; reflexivity) | (right; reflexivity)
    | split | eexists ].

(** One step of weakest-precondition computation; [call_tac] says what to
    do at a call. *)
Ltac wp_step call_tac :=
  cbn beta; cbn [vars trace is_None andb];
  lazymatch goal with
  | |- wp (bind _ _) _ _ _ => apply wp_bind
  | |- wp (ret _) _ _ _ => apply wp_ret
  | |- wp (raise _) _ _ _ => apply wp_raise
  | |- wp (store _ _) _ _ _ => apply wp_store
  | |- wp (load _) _ _ _ => eapply wp_load; [ lookup |]
  | |- wp (lift ?r) _ _ _ => apply wp_lift; destruct r
  | |- wp (try_except _ _ _) _ _ _ => apply wp_try_except
  | |- wp (perform ?c) _ _ _ => call_tac c
  | |- wp (if ?b then _ else _) _ _ _ => destruct b
  | |- wp (match ?v with _ => _ end) _ _ _ => destruct v
  | |- if isinstance ?e ?c then _ else _ => destruct (isinstance e c)
  end.

(** At a call, consider both answers, remembering where the answer came
    from. *)
Ltac plain_call c :=
  let r := fresh "r" in
  let Hr := fresh "Hr" in
  apply wp_perform; cbn [vars trace]; intros r Hr; destruct r.

(** At a call, prove that it is an expected one, move the recorded facts
    past it, and consider both answers. *)
Ltac expected_call φ c :=
  let r := fresh "r" in
  let Hok := fresh "Hok" in
  apply wp_perform; cbn [vars trace]; intros r _;
  lazymatch goal with
  | H : trace_ok φ ?tr |- _ =>
      assert (trace_ok φ (tr ++ [(c, r)])) as Hok
        by (apply trace_ok_snoc; [ exact H | hnf; solve_side ]);
      clear H
  end;
  track c r;
  destruct r.

Ltac wp_run φ :=
  repeat wp_step ltac:(fun c => expected_call φ c); try solve [ solve_side ].

(** The trace at the end of a piece of code, as the trace at its start
    followed by the calls made since. *)
Ltac solve_extension :=
  cbn beta; cbn [vars trace];
  eexists; split; [ rewrite <- ?app_assoc; cbn [app]; reflexivity |].

Lemma wp_result {A} (m : M A) Q E s :
  wp m Q E s →
  match (m s).2 with
  | inr a => Q a (m s).1
  | inl e => E e (m s).1
  end.
Proof. unfold wp. by destruct (m s) as [s' [e | a]]. Qed.

(** * Every call of a run is an expected one *)

Section Run.

Context {RT : Runtime}.

Lemma cell_install_expected s :
  at_start s → wp cell_install (λ _, at_start) stopped s.
Proof.
  destruct s as [g tr]. intros (Hok & Hr & Hc). cbn [vars trace] in *.
  unfold cell_install, at_start, stopped. wp_run expected.
Qed.

Lemma cell_version_check_expected s :
  at_start s → wp cell_version_check (λ _, at_start) stopped s.
Proof.
  destruct s as [g tr]. intros (Hok & Hr & Hc). cbn [vars trace] in *.
  unfold cell_version_check, at_start, stopped. wp_run expected.
Qed.

Lemma cell_permissions_expected s :
  at_start s →
  wp cell_permissions (λ _ s', ∃ r rg, at_image r rg s') stopped s.
Proof.
  destruct s as [g tr]. intros (Hok & Hr & Hc). cbn [vars trace] in *.
  unfold cell_permissions, resolve_role, role_fallback, at_image, at_start,
    stopped.
  wp_run expected.
Qed.

Lemma cell_image_expected r rg s :
  at_image r rg s →
  wp cell_image (λ _ s', ∃ img, at_models r rg img s') stopped s.
Proof.
  destruct s as [g tr]. intros ((Hok & Hr & Hc) & ? & ? & ?).
  cbn [vars trace] in *.
  unfold cell_image, at_models, stopped. wp_run expected.
Qed.

Lemma cell_models_expected r rg img s :
  at_models r rg img s →
  wp cell_models (λ _, at_deploy r rg img) stopped s.
Proof.
  destruct s as [g tr]. intros (Hok & Hr & Hc & ? & ? & ?).
  cbn [vars trace] in *.
  unfold cell_models, at_deploy, at_models, stopped. wp_run expected.
Qed.

Lemma cell_deploy_expected r rg img s :
  at_deploy r rg img s → wp cell_deploy (λ _, at_payloads) stopped s.
Proof.
  destruct s as [g tr]. intros ((Hok & Hr & Hc & ? & ? & ?) & ? & ? & ?).
  cbn [vars trace] in *.
  unfold cell_deploy, at_payloads, deployed, stopped. wp_run expected.
Qed.

Lemma cell_payloads_expected s :
  at_payloads s → wp cell_payloads (λ _, at_invoke) stopped s.
Proof.
  destruct s as [g tr]. intros (Hok & Hd & ?). cbn [vars trace] in *.
  unfold cell_payloads, at_invoke, at_payloads, stopped. wp_run expected.
Qed.

Lemma cell_invoke_english_expected s :
  at_invoke s → wp cell_invoke_english (λ _, at_invoke) stopped s.
Proof.
  destruct s as [g tr]. intros ((Hok & Hd & ?) & ? & ?).
  cbn [vars trace] in *.
  unfold cell_invoke_english, read_result, at_invoke, at_payloads, stopped.
  wp_run expected.
Qed.

Lemma cell_invoke_german_expected s :
  at_invoke s → wp cell_invoke_german (λ _, at_invoke) stopped s.
Proof.
  destruct s as [g tr]. intros ((Hok & Hd & ?) & ? & ?).
  cbn [vars trace] in *.
  unfold cell_invoke_german, read_result, at_invoke, at_payloads, stopped.
  wp_run expected.
Qed.

Lemma cell_predictor_expected s :
  at_invoke s → wp cell_predictor (λ _, at_load_test) stopped s.
Proof.
  destruct s as [g tr]. intros ((Hok & Hd & ?) & ? & ?).
  cbn [vars trace] in *.
  unfold cell_predictor, predict_english, predict_german,
    at_load_test, at_invoke, at_payloads, stopped.
  wp_run expected.
Qed.

Lemma cell_load_test_expected s :
  at_load_test s → wp cell_load_test (λ _, at_load_test) stopped s.
Proof.
  intros Hs. unfold cell_load_test.
  apply wp_for_in with (I := λ _, at_load_test); [done | | done].
  intros k _ [g tr] (((Hok & Hd & ?) & ? & ?) & ?).
  cbn [vars trace] in *.
  unfold load_test_body, predict_english, predict_german,
    at_load_test, at_invoke, at_payloads, stopped.
  wp_run expected.
Qed.

Lemma cell_teardown_expected s :
  at_load_test s → wp cell_teardown (λ _, at_end) stopped s.
Proof.
  destruct s as [g tr].
  intros (((Hok & (r & img & v1 & v2 & v3 & Hd) & ?) & ? & ?) & ?).
  cbn [vars trace] in *.
  unfold cell_teardown, at_end, deployed, stopped.
  wp_run expected.
Qed.

(** Chaining a cell with what follows it. *)
Lemma wp_cell {A} (cell : M unit) (rest : M A) (P : state → Prop) Q E s :
  wp cell (λ _, P) E s →
  (∀ s', P s' → wp rest Q E s') →
  wp (cell ;; rest) Q E s.
Proof.
  intros Hc Hr. apply wp_bind.
  eapply wp_conseq; [ exact Hc | | done ]. intros [] s'. apply Hr.
Qed.

Lemma at_start_initial : at_start initial_state.
Proof. split; [ constructor | done ]. Qed.

Lemma notebook_expected :
  wp notebook (λ _, at_end) stopped initial_state.
Proof.
  unfold notebook.
  eapply wp_cell; [ apply cell_install_expected, at_start_initial |].
  intros s1 H1.
  eapply wp_cell; [ by apply cell_version_check_expected |]. intros s2 H2.
  eapply wp_cell; [ by apply cell_permissions_expected |].
  intros s3 (r & rg & H3).
  eapply wp_cell; [ by eapply cell_image_expected |]. intros s4 (img & H4).
  eapply wp_cell; [ by eapply cell_models_expected |]. intros s5 H5.
  eapply wp_cell; [ by eapply cell_deploy_expected |]. intros s6 H6.
  eapply wp_cell; [ by apply cell_payloads_expected |]. intros s7 H7.
  eapply wp_cell; [ by apply cell_invoke_english_expected |]. intros s8 H8.
  eapply wp_cell; [ by apply cell_invoke_german_expected |]. intros s9 H9.
  eapply wp_cell; [ by apply cell_predictor_expected |]. intros s10 H10.
  eapply wp_cell; [ by apply cell_load_test_expected |]. intros s11 H11.
  by apply cell_teardown_expected.
Qed.

(** The trace of a run, whether it completes or stops on an exception. *)
Lemma run_trace_expected : trace_ok expected (trace run.1).
Proof.
  pose proof notebook_expected as H. unfold wp in H. unfold run.
  destruct (notebook initial_state) as [s [e | []]]; [ exact H |].
  apply H.
Qed.

End Run.

Lemma model_hostnames_resource_events tr :
  model_hostnames tr = model_hostnames (resource_events tr).
Proof.
  unfold model_hostnames, resource_events.
  induction tr as [| [c r] tr IH]; [ done |].
  cbn [mbind list_bind List.filter fst]. rewrite IH.
  destruct c; try done.
Qed.

Lemma deployed_hostnames tr :
  deployed tr → model_hostnames tr = ["englishModel"; "germanModel"].
Proof.
  intros (r & img & v1 & v2 & v3 & H).
  rewrite model_hostnames_resource_events, H. done.
Qed.


(** ** The deployment cell and the load-test cell on their own *)

Lemma cell_deploy_calls `{RT : Runtime} s c cfg r en de :
  vars s sm_client = Some c →
  vars s inferenceExecutionConfig = Some cfg →
  vars s role = Some r →
  vars s englishModel = Some en →
  vars s germanModel = Some de →
  wp cell_deploy
    (λ _ s', ∃ evs, trace s' = trace s ++ evs ∧
                    evs.*1 = deploy_calls c cfg r en de)
    (λ _ s', ∃ evs, trace s' = trace s ++ evs ∧
                    evs.*1 `prefix_of` deploy_calls c cfg r en de)
    s.
Proof.
  destruct s as [g tr]. cbn [vars trace]. intros ? ? ? ? ?.
  unfold cell_deploy. repeat wp_step plain_call;
    solve_extension; first [ reflexivity | by eexists ].
Qed.

Lemma requests_to_rounds p en de n :
  requests_to "englishModel" (concat (replicate n (round p en de))) = n ∧
  requests_to "germanModel" (concat (replicate n (round p en de))) = n.
Proof.
  unfold requests_to. induction n as [| n [IHe IHg]]; [ done |].
  cbn [replicate concat round app List.filter routing_field].
  rewrite !lookup_singleton_eq.
  rewrite (bool_decide_true (Some (Some "englishModel") = _)) by done.
  rewrite (bool_decide_false (Some (Some "germanModel") = _)) by done.
  rewrite (bool_decide_false (Some (Some "englishModel") = _)) by done.
  rewrite (bool_decide_true (Some (Some "germanModel") = _)) by done.
  cbn [length]. by rewrite IHe, IHg.
Qed.

Lemma load_test_loop `{RT : Runtime} (l : list nat) s p en de :
  vars s predictor = Some p →
  vars s english_payload = Some en →
  vars s german_payload = Some de →
  wp (for_in i l load_test_body)
    (λ _ s', ∃ evs, trace s' = trace s ++ evs ∧ answered (trace s) evs ∧
                    evs.*1 = concat (replicate (length l) (round p en de)))
    (λ _ s', ∃ evs, trace s' = trace s ++ evs ∧ answered (trace s) evs ∧
                    evs.*1 `prefix_of`
                      concat (replicate (length l) (round p en de)))
    s.
Proof.
  revert s. induction l as [| k l IH]; intros [g tr]; cbn [vars trace];
    intros Hp Hen Hde.
  - cbn [for_in]. apply wp_ret. exists []. by rewrite app_nil_r.
  - cbn [for_in]. unfold load_test_body, predict_english, predict_german.
    repeat wp_step plain_call;
      try (solve_extension; split; [ done | by eexists ]).
    cbn beta.
    eapply wp_conseq; [ apply IH; lookup | |]; cbn [vars trace].
    + intros _ s' (evs & -> & Hans & Hcalls).
      solve_extension. split; [ done |].
      cbn [fmap list_fmap fst length replicate concat app round].
      by rewrite <- Hcalls.
    + intros _ s' (evs & -> & Hans & Hcalls).
      solve_extension. split; [ done |].
      cbn [fmap list_fmap fst length replicate concat app round].
      by do 2 apply prefix_cons.
Qed.

(** ** Propagation of failures *)

Section Propagation.

Context {RT : Runtime}.

Lemma propagates_ret {A} (a : A) : propagates (ret a).
Proof. intros s. exists []. rewrite app_nil_r. split; [ done | constructor ]. Qed.

Lemma propagates_raise {A} (e : exn) : propagates (raise (A := A) e).
Proof.
  intros s. exists []. rewrite app_nil_r. split; [ done | left; constructor ].
Qed.

Lemma propagates_lift {A} (r : exn + A) : propagates (lift r).
Proof.
  intros s. exists []. rewrite app_nil_r. split; [ done |].
  destruct r; cbn; [ left |]; constructor.
Qed.

Lemma propagates_store x v : propagates (store x v).
Proof. intros s. exists []. rewrite app_nil_r. split; [ done | constructor ]. Qed.

Lemma propagates_load x : propagates (load x).
Proof.
  intros s. exists []. rewrite app_nil_r. unfold load.
  destruct (vars s x); cbn; (split; [ done |]); [| left ]; constructor.
Qed.

Lemma propagates_perform c : propagates (perform c).
Proof.
  intros s. exists [(c, respond (trace s) c)]. split; [ done |].
  unfold perform. cbn. destruct (respond (trace s) c) as [e | v].
  - right. exists [], c. split; [ done | constructor ].
  - by repeat constructor.
Qed.

Lemma propagates_bind {A B} (m : M A) (k : A → M B) :
  propagates m → (∀ a, propagates (k a)) → propagates (bind m k).
Proof.
  intros Hm Hk s. destruct (Hm s) as (evs1 & Htr1 & H1). unfold bind.
  destruct (m s) as [s1 [e | a]]; cbn [fst snd] in *.
  - by exists evs1.
  - destruct (Hk a s1) as (evs2 & Htr2 & H2).
    exists (evs1 ++ evs2). rewrite Htr2, Htr1, app_assoc. split; [ done |].
    destruct (k a s1).2 as [e | b].
    + destruct H2 as [H2 | (evs' & c & -> & H2)].
      * left. by apply Forall_app.
      * right. exists (evs1 ++ evs'), c. rewrite app_assoc.
        split; [ done | by apply Forall_app ].
    + by apply Forall_app.
Qed.

Lemma propagates_for_in x l body :
  propagates body → propagates (for_in x l body).
Proof.
  intros Hbody. induction l as [| v l IH]; cbn [for_in].
  - apply propagates_ret.
  - apply propagates_bind; [ apply propagates_store | intros _ ].
    apply propagates_bind; [ exact Hbody | intros _; exact IH ].
Qed.

(** Closes [propagates m] for code without [try]. *)
Ltac propagation :=
  repeat first
    [ apply propagates_ret | apply propagates_raise | apply propagates_lift
    | apply propagates_store | apply propagates_load
    | apply propagates_perform
    | apply propagates_for_in
    | apply propagates_bind; [| intros ? ]
    | match goal with
      | |- propagates (if ?b then _ else _) => destruct b
      | |- propagates (match ?v with _ => _ end) => destruct v
      end
    | assumption ].

(** What the [try] statement does, by the answer to the role lookup. *)
Lemma resolve_role_eq s :
  resolve_role s =
    match respond (trace s) get_execution_role with
    | inr r =>
        (State (assign role r (vars s))
           (trace s ++ [(get_execution_role, inr r)]), inr tt)
    | inl e =>
        if isinstance e "ValueError"
        then role_fallback
               (State (vars s) (trace s ++ [(get_execution_role, inl e)]))
        else (State (vars s) (trace s ++ [(get_execution_role, inl e)]),
              inl e)
    end.
Proof.
  unfold resolve_role, try_except, bind, perform, store. cbn [vars trace].
  by destruct (respond (trace s) get_execution_role).
Qed.

(** The [try] statement lets through every failure but the handled one. *)
Lemma propagates_resolve_role : propagates resolve_role.
Proof.
  assert (propagates role_fallback) as Hhandler
    by (unfold role_fallback; propagation).
  intros s. rewrite resolve_role_eq.
  destruct (respond (trace s) get_execution_role) as [e | v] eqn:Hr.
  - destruct (isinstance e "ValueError") eqn:He.
    + match goal with
      | |- context [ role_fallback ?s' ] =>
          destruct (Hhandler s') as (evs & Htr & H)
      end.
      cbn [trace] in Htr.
      exists ((get_execution_role, inl e) :: evs).
      rewrite Htr, <- app_assoc. split; [ done |].
      match goal with
      | |- match ?o with _ => _ end => destruct o as [e' | []]
      end.
      * destruct H as [H | (evs' & c & -> & H)].
        -- left. by constructor.
        -- right. exists ((get_execution_role, inl e) :: evs'), c.
           split; [ done | by constructor ].
      * by constructor.
    + exists [(get_execution_role, inl e)]. split; [ done |].
      right. exists [], get_execution_role. split; [ done | constructor ].
  - exists [(get_execution_role, inr v)]. split; [ done |].
    by repeat constructor.
Qed.

Lemma propagates_notebook : propagates notebook.
Proof.
  pose proof propagates_resolve_role.
  unfold notebook, cell_install, cell_version_check, cell_permissions,
    cell_image, cell_models, cell_deploy, cell_payloads, cell_invoke_english,
    cell_invoke_german, read_result, cell_predictor, cell_load_test,
    load_test_body, predict_english, predict_german, cell_teardown.
  propagation.
Qed.

End Propagation.

(** ** Variables left alone *)

Section Keeps.

Context {RT : Runtime}.

Lemma keeps_ret {A} x (a : A) : keeps x (ret a).
Proof. done. Qed.

Lemma keeps_raise {A} x (e : exn) : keeps x (raise (A := A) e).
Proof. done. Qed.

Lemma keeps_lift {A} x (r : exn + A) : keeps x (lift r).
Proof. done. Qed.

Lemma keeps_load x y : keeps x (load y).
Proof. intros s. unfold load. by destruct (vars s y). Qed.

Lemma keeps_perform x c : keeps x (perform c).
Proof. done. Qed.

Lemma keeps_store x y v : y ≠ x → keeps x (store y v).
Proof. intros Hne s. by apply lookup_assign_ne. Qed.

Lemma keeps_bind {A B} x (m : M A) (k : A → M B) :
  keeps x m → (∀ a, keeps x (k a)) → keeps x (bind m k).
Proof.
  intros Hm Hk s. specialize (Hm s). unfold bind.
  destruct (m s) as [s1 [e | a]]; [ done |].
  rewrite Hk. done.
Qed.

Lemma keeps_for_in x y l body :
  y ≠ x → keeps x body → keeps x (for_in y l body).
Proof.
  intros Hne Hbody. induction l as [| v l IH]; cbn [for_in]; [ done |].
  apply keeps_bind; [ by apply keeps_store | intros _ ].
  by apply keeps_bind.
Qed.

End Keeps.

(** Closes [keeps x m] for code without [try]. *)
Ltac frame :=
  repeat first
    [ apply keeps_ret | apply keeps_raise | apply keeps_lift
    | apply keeps_load | apply keeps_perform
    | apply keeps_store; discriminate
    | apply keeps_for_in; [ discriminate |]
    | apply keeps_bind; [| intros ? ]
    | match goal with
      | |- keeps _ (if ?b then _ else _) => destruct b
      | |- keeps _ (match ?v with _ => _ end) => destruct v
      end ].

(** ** Resources *)

Lemma cloud_after_resource_events σ tr :
  Cloud.after σ tr = Cloud.after σ (resource_events tr).
Proof.
  unfold Cloud.after, resource_events. revert σ.
  induction tr as [| [c [e | v]] tr IH]; intros σ; [ done | |];
    cbn [foldl List.filter fst]; rewrite IH; by destruct c.
Qed.

(** ** Where the arguments of a call come from *)

Lemma elem_of_snoc_l {A} (x : A) l y : x ∈ l → x ∈ l ++ [y].
Proof. intros H. apply elem_of_app. by left. Qed.

Lemma elem_of_snoc_here {A} (x : A) l : x ∈ l ++ [x].
Proof. apply elem_of_app. right. constructor. Qed.

Lemma elem_of_prefix_of_split {A} (x y : A) pre p1 p2 post :
  pre = p1 ++ x :: p2 → pre ++ y :: post = p1 ++ x :: (p2 ++ y :: post).
Proof. intros ->. by rewrite <- app_assoc. Qed.

Lemma bucket_source_snoc tr ev b :
  bucket_source tr b → bucket_source (tr ++ [ev]) b.
Proof. apply elem_of_snoc_l. Qed.

Lemma session_source_snoc tr ev x :
  session_source tr x → session_source (tr ++ [ev]) x.
Proof. intros [h Hh]. exists h. by apply elem_of_snoc_l. Qed.

Lemma region_source_snoc tr ev rg :
  region_source tr rg → region_source (tr ++ [ev]) rg.
Proof.
  intros (x & Hin & Hx & Hb). exists x.
  split; [ by apply elem_of_snoc_l |].
  split; [ by apply session_source_snoc | by apply bucket_source_snoc ].
Qed.

Lemma role_source_snoc tr ev r :
  role_source tr r → role_source (tr ++ [ev]) r.
Proof.
  intros [H | (v & v' & H & ? & ?)]; [ left | right; exists v, v' ];
    eauto using elem_of_snoc_l.
Qed.

Lemma image_source_snoc tr ev img :
  image_source tr img → image_source (tr ++ [ev]) img.
Proof.
  intros (rg & Hin & Hrg). exists rg.
  split; [ by apply elem_of_snoc_l | by apply region_source_snoc ].
Qed.

Lemma store_ok_snoc tr ev x v : store_ok tr x v → store_ok (tr ++ [ev]) x v.
Proof.
  destruct x; cbn [store_ok]; try done;
    eauto using region_source_snoc, role_source_snoc, image_source_snoc.
Qed.

Section Traced.

Context {RT : Runtime}.

Lemma traced_store g tr x v :
  traced (State g tr) → store_ok tr x v → traced (State (assign x v g) tr).
Proof.
  intros [Hok Hvars] Hv. split; [ exact Hok |]. cbn [vars trace] in *.
  intros y w Hy. destruct (decide (x = y)) as [<- | Hne].
  - rewrite lookup_assign_eq in Hy. by injection Hy as <-.
  - rewrite lookup_assign_ne in Hy by done. by apply Hvars.
Qed.

Lemma traced_perform g tr c r :
  traced (State g tr) → provenance tr c → traced (State g (tr ++ [(c, r)])).
Proof.
  intros [Hok Hvars] Hc. split; [ by constructor |]. cbn [vars trace] in *.
  intros y w Hy. by apply store_ok_snoc, Hvars.
Qed.

Lemma traced_load g tr x v :
  traced (State g tr) → g x = Some v → store_ok tr x v.
Proof. intros [_ Hvars] Hx. by apply Hvars. Qed.

(** Reading a variable about which nothing is known. *)
Lemma wp_load_any (x : var) (Q : type_of x → state → Prop) E s :
  (∀ v, vars s x = Some v → Q v s) →
  (vars s x = None → E NameError s) →
  wp (load x) Q E s.
Proof.
  intros Hsome Hnone. unfold wp, load.
  destruct (vars s x) as [v |]; [ by apply Hsome | by apply Hnone ].
Qed.

End Traced.

(** Moves the recorded facts past one more completed call. *)
Ltac lift_sources ev :=
  repeat match goal with
    | H : bucket_source ?tr _ |- _ =>
        lazymatch tr with
        | _ ++ [ev] => fail
        | _ => apply (bucket_source_snoc tr ev) in H
        end
    | H : session_source ?tr _ |- _ =>
        lazymatch tr with
        | _ ++ [ev] => fail
        | _ => apply (session_source_snoc tr ev) in H
        end
    | H : region_source ?tr _ |- _ =>
        lazymatch tr with
        | _ ++ [ev] => fail
        | _ => apply (region_source_snoc tr ev) in H
        end
    | H : role_source ?tr _ |- _ =>
        lazymatch tr with
        | _ ++ [ev] => fail
        | _ => apply (role_source_snoc tr ev) in H
        end
    | H : image_source ?tr _ |- _ =>
        lazymatch tr with
        | _ ++ [ev] => fail
        | _ => apply (image_source_snoc tr ev) in H
        end
    | H : _ ∈ ?tr |- _ =>
        lazymatch tr with
        | _ ++ [ev] => fail
        | _ => apply (elem_of_snoc_l _ tr ev) in H
        end
    end.

(** Closes a condition on where a value came from. *)
Ltac solve_source :=
  hnf;
  repeat first
    [ exact I | eassumption | reflexivity
    | apply Forall_nil | apply Forall_cons
    | split
    | (left; solve [ solve_source ]) | (right; solve [ solve_source ])
    | eexists ].

(** Reads a variable: what it holds is what was assigned earlier in the
    same code, or a value the state is known to hold. *)
Ltac traced_load_step :=
  let v := fresh "v" in
  let Hv := fresh "Hv" in
  let Hsrc := fresh "Hsrc" in
  apply wp_load_any; cbn [vars trace];
  [ intros v Hv;
    lazymatch goal with
    | H : traced (State ?g ?tr) |- _ =>
        pose proof (traced_load g tr _ v H Hv) as Hsrc;
        cbn [store_ok] in Hsrc
    end;
    rewrite ?lookup_assign_eq, ?lookup_assign_ne in Hv by discriminate;
    try (injection Hv as Hv; subst v)
  | intros _ ].

Ltac traced_step :=
  cbn beta; cbn [vars trace is_None andb];
  lazymatch goal with
  | |- wp (bind _ _) _ _ _ => apply wp_bind
  | |- wp (ret _) _ _ _ => apply wp_ret
  | |- wp (raise _) _ _ _ => apply wp_raise
  | |- wp (lift ?r) _ _ _ => apply wp_lift; destruct r eqn:?
  | |- wp (try_except _ _ _) _ _ _ => apply wp_try_except
  | |- wp (if ?b then _ else _) _ _ _ => destruct b
  | |- wp (match ?v with _ => _ end) _ _ _ => destruct v
  | |- if isinstance ?e ?c then _ else _ => destruct (isinstance e c) eqn:?
  | |- wp (load _) _ _ _ => traced_load_step
  | |- wp (store ?x ?v) _ _ _ =>
      apply wp_store; cbn [vars trace];
      lazymatch goal with
      | H : traced (State ?g ?tr) |- _ =>
          apply (traced_store g tr x v) in H;
          [| cbn [store_ok]; solve_source ]
      end
  | |- wp (perform ?c) _ _ _ =>
      let r := fresh "r" in
      apply wp_perform; cbn [vars trace]; intros r _;
      lazymatch goal with
      | H : traced (State ?g ?tr) |- _ =>
          apply (traced_perform g tr c r) in H; [| solve_source ];
          lift_sources (c, r);
          pose proof (elem_of_snoc_here (c, r) tr)
      end;
      destruct r
  end.

Ltac traced_run := repeat traced_step; try assumption.

Section Sources.

Context {RT : Runtime}.

Lemma cell_install_traced s :
  traced s → wp cell_install (λ _, traced) (λ _, traced) s.
Proof. destruct s as [g tr]. intros H. unfold cell_install. traced_run. Qed.

Lemma cell_version_check_traced s :
  traced s → wp cell_version_check (λ _, traced) (λ _, traced) s.
Proof.
  destruct s as [g tr]. intros H. unfold cell_version_check. traced_run.
Qed.

Lemma cell_permissions_traced s :
  traced s → wp cell_permissions (λ _, traced) (λ _, traced) s.
Proof.
  destruct s as [g tr]. intros H.
  unfold cell_permissions, resolve_role, role_fallback. traced_run.
Qed.

Lemma cell_image_traced s :
  traced s → wp cell_image (λ _, traced) (λ _, traced) s.
Proof. destruct s as [g tr]. intros H. unfold cell_image. traced_run. Qed.

Lemma cell_models_traced s :
  traced s → wp cell_models (λ _, traced) (λ _, traced) s.
Proof. destruct s as [g tr]. intros H. unfold cell_models. traced_run. Qed.

Lemma cell_deploy_traced s :
  traced s → wp cell_deploy (λ _, traced) (λ _, traced) s.
Proof. destruct s as [g tr]. intros H. unfold cell_deploy. traced_run. Qed.

Lemma cell_payloads_traced s :
  traced s → wp cell_payloads (λ _, traced) (λ _, traced) s.
Proof. destruct s as [g tr]. intros H. unfold cell_payloads. traced_run. Qed.

Lemma cell_invoke_english_traced s :
  traced s → wp cell_invoke_english (λ _, traced) (λ _, traced) s.
Proof.
  destruct s as [g tr]. intros H.
  unfold cell_invoke_english, read_result. traced_run.
Qed.

Lemma cell_invoke_german_traced s :
  traced s → wp cell_invoke_german (λ _, traced) (λ _, traced) s.
Proof.
  destruct s as [g tr]. intros H.
  unfold cell_invoke_german, read_result. traced_run.
Qed.

Lemma cell_predictor_traced s :
  traced s → wp cell_predictor (λ _, traced) (λ _, traced) s.
Proof.
  destruct s as [g tr]. intros H.
  unfold cell_predictor, predict_english, predict_german. traced_run.
Qed.

Lemma cell_load_test_traced s :
  traced s → wp cell_load_test (λ _, traced) (λ _, traced) s.
Proof.
  intros Hs. unfold cell_load_test.
  apply wp_for_in with (I := λ _, traced); [ done | | done ].
  intros k _ [g tr] H.
  unfold load_test_body, predict_english, predict_german. traced_run.
Qed.

Lemma cell_teardown_traced s :
  traced s → wp cell_teardown (λ _, traced) (λ _, traced) s.
Proof. destruct s as [g tr]. intros H. unfold cell_teardown. traced_run. Qed.

Lemma traced_initial : traced initial_state.
Proof. split; [ constructor | done ]. Qed.

Lemma run_trace_provenance : trace_ok provenance (trace run.1).
Proof.
  assert (wp notebook (λ _, traced) (λ _, traced) initial_state) as H.
  { unfold notebook.
    eapply wp_cell; [ apply cell_install_traced, traced_initial |].
    intros s1 H1.
    eapply wp_cell; [ by apply cell_version_check_traced |]. intros s2 H2.
    eapply wp_cell; [ by apply cell_permissions_traced |]. intros s3 H3.
    eapply wp_cell; [ by apply cell_image_traced |]. intros s4 H4.
    eapply wp_cell; [ by apply cell_models_traced |]. intros s5 H5.
    eapply wp_cell; [ by apply cell_deploy_traced |]. intros s6 H6.
    eapply wp_cell; [ by apply cell_payloads_traced |]. intros s7 H7.
    eapply wp_cell; [ by apply cell_invoke_english_traced |]. intros s8 H8.
    eapply wp_cell; [ by apply cell_invoke_german_traced |]. intros s9 H9.
    eapply wp_cell; [ by apply cell_predictor_traced |]. intros s10 H10.
    eapply wp_cell; [ by apply cell_load_test_traced |]. intros s11 H11.
    by apply cell_teardown_traced. }
  apply wp_result in H. fold run in H.
  destruct run.2 as [e | []]; apply H.
Qed.

End Sources.

(** ** The control-plane calls of a run *)

Lemma deployed_created tr :
  deployed tr →
  ∃ v, (create_endpoint sagemaker_client "multi-container-sentiment-ep"
          "multi-container-sentiment-config", inr v) ∈ tr.
Proof.
  intros (r & img & v1 & v2 & v3 & H). exists v3.
  apply list_elem_of_In.
  apply (proj1 (List.filter_In (λ ev, is_creation ev.1 || is_teardown ev.1) _ _)).
  fold (resource_events tr). rewrite H. right. right. by left.
Qed.

Lemma resource_events_lifecycle `{RT : Runtime} tr :
  trace_ok expected tr →
  ∃ r img, (resource_events tr).*1 `prefix_of` lifecycle r img.
Proof.
  induction 1 as [| tr c x Hok IH Hc].
  - exists VNone, VNone. by eexists.
  - rewrite (resource_events_snoc tr c x _ eq_refl).
    destruct c; cbn [is_creation is_teardown orb]; rewrite ?app_nil_r;
      try exact IH; clear IH; hnf in Hc.
    + destruct Hc as (r & img & rg & -> & _ & ->). exists r, img. by eexists.
    + destruct Hc as (-> & r & img & v & ->). exists r, img. by eexists.
    + destruct Hc as (-> & r & img & v1 & v2 & ->). exists r, img. by eexists.
    + destruct Hc as ((r & img & v1 & v2 & v3 & ->) & ->).
      exists r, img. by eexists.
    + destruct Hc as (-> & r & img & v1 & v2 & v3 & v4 & ->).
      exists r, img. by eexists.
Qed.

Lemma cloud_after_deployed σ tr :
  deployed tr →
  "multi-container-sentiment-model" ∈ Cloud.models (Cloud.after σ tr) ∧
  Cloud.endpoint_configs (Cloud.after σ tr) !! "multi-container-sentiment-config"
    = Some ["multi-container-sentiment-model"] ∧
  Cloud.endpoints (Cloud.after σ tr) !! "multi-container-sentiment-ep"
    = Some "multi-container-sentiment-config".
Proof.
  intros (r & img & v1 & v2 & v3 & H).
  rewrite (cloud_after_resource_events σ tr), H.
  unfold Cloud.after, model_call, config_call, endpoint_call.
  cbn [foldl Cloud.effect Cloud.models Cloud.endpoint_configs Cloud.endpoints
         fmap list_fmap ModelName].
  split; [ set_solver |]. by rewrite !lookup_insert_eq.
Qed.

(** ** Code run from a state about which nothing is known *)

(** One step of weakest-precondition computation where a variable may be
    unbound: reading it gives what was assigned earlier in the same code,
    some value, or a [NameError]. *)
Ltac wp_step_any call_tac :=
  cbn beta; cbn [vars trace is_None andb];
  lazymatch goal with
  | |- wp (load _) _ _ _ =>
      let v := fresh "v" in
      let Hv := fresh "Hv" in
      apply wp_load_any; cbn [vars trace];
      [ intros v Hv;
        rewrite ?lookup_assign_eq, ?lookup_assign_ne in Hv by discriminate;
        try (injection Hv as Hv; subst v)
      | intros ? ]
  | |- wp (lift ?r) _ _ _ => apply wp_lift; destruct r eqn:?
  | |- if isinstance ?e ?c then _ else _ => destruct (isinstance e c) eqn:?
  | _ => wp_step call_tac
  end.

(** ** Teardown comes last *)

Lemma trace_ok_no_teardown tr c r :
  trace_ok no_teardown tr → (c, r) ∈ tr → is_teardown c = false.
Proof.
  intros Hok (pre & post & Htr)%list_elem_of_split.
  exact (trace_ok_elim _ _ _ _ _ _ Hok Htr).
Qed.

Section Untouched.

Context {RT : Runtime}.

Lemma cell_untouched cell s :
  cell ∈ [ cell_install; cell_version_check; cell_permissions; cell_image;
           cell_models; cell_deploy; cell_payloads; cell_invoke_english;
           cell_invoke_german; cell_predictor; cell_load_test ] →
  untouched s → wp cell (λ _, untouched) stopped_short s.
Proof.
  intros Hcell Hs.
  apply wp_conseq with (Q := λ _, untouched) (E := λ _, untouched);
    [| done | by left ].
  unfold untouched in *.
  repeat (apply elem_of_cons in Hcell as [-> | Hcell]);
    [ .. | by apply elem_of_nil in Hcell ];
    try (destruct s as [g tr]; cbn [vars trace] in *;
         unfold cell_install, cell_version_check, cell_permissions,
           resolve_role, role_fallback, cell_image, cell_models, cell_deploy,
           cell_payloads, cell_invoke_english, cell_invoke_german,
           read_result, cell_predictor, predict_english, predict_german;
         repeat wp_step_any ltac:(fun c => expected_call no_teardown c);
         assumption).
  unfold cell_load_test.
  apply wp_for_in with (I := λ _ s', trace_ok no_teardown (trace s'));
    [ done | | done ].
  intros k _ [g tr] H. cbn [vars trace] in *.
  unfold load_test_body, predict_english, predict_german.
  repeat wp_step_any ltac:(fun c => expected_call no_teardown c);
    assumption.
Qed.

Lemma cell_teardown_stopped_short s :
  untouched s → wp cell_teardown (λ _ _, True) stopped_short s.
Proof.
  destruct s as [g tr]. intros H. unfold cell_teardown, stopped_short.
  repeat wp_step_any plain_call;
    first [ exact I | congruence | by left | right; by eexists _, _ ].
Qed.

Lemma notebook_stopped_short :
  wp notebook (λ _ _, True) stopped_short initial_state.
Proof.
  assert (untouched initial_state) as H0 by constructor.
  unfold notebook.
  repeat (eapply wp_cell;
          [ apply cell_untouched;
            [ repeat first [ apply list_elem_of_here
                           | apply list_elem_of_further ]
            | eassumption ]
          | intros ? ? ]).
  by apply cell_teardown_stopped_short.
Qed.

End Untouched.

(** ** What a cell that raises leaves behind *)

Section Failures.

Context {RT : Runtime}.

(** Closes the cases of a cell that stops: nothing was assigned to the
    variable in question. *)
Ltac kept :=
  first [ exact I
        | cbn [vars]; rewrite ?lookup_assign_ne by discriminate; reflexivity ].

Lemma failed_cell_target cell x s :
  (cell, x) ∈ [ (resolve_role, role); (cell_image, hf_inference_dlc);
                (cell_deploy, endpoint); (cell_invoke_english, result);
                (cell_invoke_german, result); (cell_predictor, de_res) ] →
  wp cell (λ _ _, True) (λ _ s', vars s' x = vars s x) s.
Proof.
  intros Hcell. destruct s as [g tr].
  repeat (apply elem_of_cons in Hcell as [[= -> ->] | Hcell]);
    [ .. | by apply elem_of_nil in Hcell ];
    unfold resolve_role, role_fallback, cell_image, cell_deploy,
      cell_invoke_english, cell_invoke_german, read_result, cell_predictor,
      predict_english, predict_german;
    repeat wp_step_any plain_call; kept.
Qed.

(** The deployment cell reads its five inputs before it makes a call. *)
Lemma cell_deploy_unbound s :
  vars s sm_client = None ∨ vars s inferenceExecutionConfig = None ∨
  vars s role = None ∨ vars s englishModel = None ∨
  vars s germanModel = None →
  wp cell_deploy (λ _ _, False) (λ e s', e = NameError ∧ trace s' = trace s) s.
Proof.
  destruct s as [g tr]. cbn [vars trace]. intros H. unfold cell_deploy.
  repeat first
    [ done
    | solve [ exfalso; intuition congruence ]
    | wp_step_any plain_call ].
Qed.

End Failures.

(** ** Answers to requests *)

Section Answers.

Context {RT : Runtime}.

Lemma invoke_cell_reads_back cell host s :
  (cell, host) ∈ [ (cell_invoke_english, "englishModel");
                   (cell_invoke_german, "germanModel") ] →
  wp cell (λ _, reads_back host) (λ _ _, True) s.
Proof.
  intros Hcell. destruct s as [g tr].
  repeat (apply elem_of_cons in Hcell as [[= -> ->] | Hcell]);
    [ .. | by apply elem_of_nil in Hcell ];
    unfold cell_invoke_english, cell_invoke_german, read_result, reads_back;
    repeat wp_step_any plain_call; try exact I;
    cbn [vars trace]; eexists _, _, _, _, _, _, _;
    (split; [ rewrite <- app_assoc; cbn [app]; reflexivity |]);
    repeat split; first [ eassumption | reflexivity | lookup ].
Qed.

Lemma usable_snoc tr c x :
  Forall usable tr → usable (c, x) → Forall usable (tr ++ [(c, x)]).
Proof. intros H Hx. apply Forall_app. split; [ exact H | by constructor ]. Qed.

(** At a call: every answer but that of a request is usable as it comes. *)
Ltac usable_call c :=
  let r := fresh "r" in
  apply wp_perform; cbn [vars trace]; intros r _; destruct r;
  try lazymatch goal with
      | H : Forall usable ?tr |- context [ ?tr ++ [(c, ?x)] ] =>
          apply (usable_snoc tr c x) in H;
          [| first [ exact I | intros ?; discriminate ] ]
      end.

(** Once the ["Body"] of an answer has been taken, the answer is usable. *)
Ltac usable_answer :=
  try match goal with
      | H : Forall usable ?tr, Hb : subscript ?r "Body" = inr _
        |- context [ ?tr ++ [(?c, inr ?r)] ] =>
          apply (usable_snoc tr c (inr r)) in H;
          [| intros _; eexists; exact Hb ]
      end.

Lemma cell_answers_usable cell s :
  cell ∈ [ cell_install; cell_version_check; cell_permissions; cell_image;
           cell_models; cell_deploy; cell_payloads; cell_invoke_english;
           cell_invoke_german; cell_predictor; cell_load_test;
           cell_teardown ] →
  Forall usable (trace s) →
  wp cell (λ _ s', Forall usable (trace s')) stopped_on_answer s.
Proof.
  intros Hcell Hs. unfold stopped_on_answer.
  repeat (apply elem_of_cons in Hcell as [-> | Hcell]);
    [ .. | by apply elem_of_nil in Hcell ];
    try (destruct s as [g tr]; cbn [vars trace] in *;
         unfold cell_install, cell_version_check, cell_permissions,
           resolve_role, role_fallback, cell_image, cell_models, cell_deploy,
           cell_payloads, cell_invoke_english, cell_invoke_german,
           read_result, cell_predictor, predict_english, predict_german,
           cell_teardown;
         repeat (wp_step_any usable_call; usable_answer);
         solve [ assumption | by left | right; by eexists _, _, _ ]).
  unfold cell_load_test.
  apply wp_for_in with (I := λ _ s', Forall usable (trace s'));
    [ done | | done ].
  intros k _ [g tr] H. cbn [vars trace] in *.
  unfold load_test_body, predict_english, predict_german.
  repeat (wp_step_any usable_call; usable_answer);
    solve [ assumption | by left ].
Qed.

Lemma notebook_answers_usable :
  wp notebook (λ _ s', Forall usable (trace s')) stopped_on_answer
    initial_state.
Proof.
  assert (Forall usable (trace initial_state)) as H0 by constructor.
  unfold notebook.
  repeat (eapply wp_cell;
          [ apply cell_answers_usable;
            [ repeat first [ apply list_elem_of_here
                           | apply list_elem_of_further ]
            | eassumption ]
          | intros ? ? ]).
  apply cell_answers_usable; [| assumption ].
  repeat first [ apply list_elem_of_here | apply list_elem_of_further ].
Qed.

End Answers.

(** ** The version check *)

(** What the version cell does, for a given version string. *)
Lemma cell_version_check_eq `{RT : Runtime} s x v :
  respond (trace s) (import_module "sagemaker") = inr x →
  respond (trace s ++ [(import_module "sagemaker", inr x)]) sagemaker_version
    = inr (VStr v) →
  cell_version_check s =
    (State (vars s)
       (trace s ++ [ (import_module "sagemaker", inr x);
                     (sagemaker_version, inr (VStr v)) ]),
     if String.leb "2.75.0" v then inr tt else inl AssertionError).
Proof.
  intros Hx Hv.
  unfold cell_version_check, bind, perform, lift, py_ge. cbn [vars trace].
  rewrite Hx. cbn [vars trace]. rewrite Hv. cbn [vars trace].
  rewrite <- app_assoc. by destruct (String.leb "2.75.0" v).
Qed.

(** The comparison is decided within the minor version, whatever
    follows. *)
Lemma leb_minor_alone :
  forallb (λ n, (n =? 75)%nat ||
                eqb (String.leb "2.75.0" (version_string [2; n]))
                    (minor_accepted n))
          (seq 0 1000) = true.
Proof. vm_compute. reflexivity. Qed.

Lemma leb_minor_followed (t : string) :
  forallb (λ n, (n =? 75)%nat ||
                eqb (String.leb "2.75.0" ("2." +:+ pretty n +:+ "." +:+ t))
                    (minor_accepted n))
          (seq 0 1000) = true.
Proof. vm_compute. reflexivity. Qed.

Lemma leb_minor n rest :
  (n < 1000)%nat → n ≠ 75%nat →
  String.leb "2.75.0" (version_string (2 :: n :: rest)) = minor_accepted n.
Proof.
  intros Hlt Hne.
  assert (In n (seq 0 1000)) as Hin by (apply in_seq; lia).
  destruct rest as [| p rest].
  - pose proof (proj1 (forallb_forall _ _) leb_minor_alone n Hin) as H.
    apply orb_true_iff in H as [H | H].
    + apply Nat.eqb_eq in H. lia.
    + by apply eqb_prop in H.
  - pose proof (proj1 (forallb_forall _ _)
                  (leb_minor_followed
                     (String.concat "." (pretty <$> p :: rest))) n Hin) as H.
    apply orb_true_iff in H as [H | H].
    + apply Nat.eqb_eq in H. lia.
    + by apply eqb_prop in H.
Qed.

(** ** The loop counter *)

Lemma for_in_last `{RT : Runtime} x (l : list (type_of x)) body s :
  keeps x body → l ≠ [] →
  (for_in x l body s).2 = inr tt →
  vars (for_in x l body s).1 x = last l.
Proof.
  intros Hbody. revert s. induction l as [| v l IH]; intros s Hne Hdone;
    [ done |].
  cbn [for_in] in *. unfold bind in *. cbn [store] in *.
  unfold store in *.
  pose proof (Hbody (State (assign x v (vars s)) (trace s))) as Hkeep.
  destruct (body _) as [s1 [e | []]]; [ done |].
  cbn [fst vars] in Hkeep. rewrite lookup_assign_eq in Hkeep.
  destruct l as [| w l]; [ done |].
  rewrite IH by done. done.
Qed.

(** ** Counting requests *)

Lemma requests_to_snoc h tr c (r : exn + value) n :
  requests_to h tr.*1 = n →
  requests_to h (tr ++ [(c, r)]).*1 =
    (n + if bool_decide (routing_field c = Some (Some h)) then 1 else 0)%nat.
Proof.
  intros <-. unfold requests_to.
  rewrite fmap_app, List.filter_app, length_app. cbn [fmap list_fmap List.filter fst].
  by destruct (bool_decide _).
Qed.

(** At a call, count it if it is a request routed to one of the
    containers. *)
Ltac count_call c :=
  let r := fresh "r" in
  apply wp_perform; cbn [vars trace]; intros r _;
  repeat match goal with
    | H : requests_to ?h (?tr).*1 = _ |- _ =>
        lazymatch tr with
        | _ ++ [(c, r)] => fail
        | _ => apply (requests_to_snoc h tr c r) in H;
               cbn [routing_field] in H;
               rewrite ?lookup_singleton_eq in H;
               first [ rewrite bool_decide_true in H by done
                     | rewrite bool_decide_false in H by done ]
        end
    end;
  destruct r.

Ltac counted :=
  cbn [vars trace];
  first [ exact I
        | split;
          match goal with
          | H : requests_to ?h _ = _ |- requests_to ?h _ = _ =>
              etrans; [ exact H | lia ]
          end ].

Section Counting.

Context {RT : Runtime}.

Lemma cell_requests cell den dde a b s :
  (cell, den, dde) ∈
    [ (cell_install, 0, 0); (cell_version_check, 0, 0);
      (cell_permissions, 0, 0); (cell_image, 0, 0); (cell_models, 0, 0);
      (cell_deploy, 0, 0); (cell_payloads, 0, 0);
      (cell_invoke_english, 1, 0); (cell_invoke_german, 0, 1);
      (cell_predictor, 1, 1); (cell_load_test, 1000, 1000);
      (cell_teardown, 0, 0) ]%nat →
  requests_are a b s →
  wp cell (λ _, requests_are (a + den) (b + dde)) (λ _ _, True) s.
Proof.
  intros Hcell [Ha Hb]. unfold requests_are.
  repeat (apply elem_of_cons in Hcell as [[= -> -> ->] | Hcell]);
    [ .. | by apply elem_of_nil in Hcell ];
    try (destruct s as [g tr]; cbn [vars trace] in *;
         unfold cell_install, cell_version_check, cell_permissions,
           resolve_role, role_fallback, cell_image, cell_models, cell_deploy,
           cell_payloads, cell_invoke_english, cell_invoke_german,
           read_result, cell_predictor, predict_english, predict_german,
           cell_teardown;
         repeat wp_step_any count_call; solve [ counted ]).
  unfold cell_load_test.
  apply wp_for_in
    with (I := λ l s', requests_are (a + 1000 - length l) (b + 1000 - length l) s'
                       ∧ (length l ≤ 1000)%nat).
  - unfold range. rewrite length_seq. split; [| done ].
    split; [ rewrite Ha | rewrite Hb ]; lia.
  - intros k l [g tr] [[Hen Hde] Hlen]. cbn [vars trace length] in *.
    unfold load_test_body, predict_english, predict_german, requests_are.
    repeat wp_step_any count_call; try exact I.
    cbn [vars trace]. split; [| lia ].
    split;
      match goal with
      | H : requests_to ?h _ = _ |- requests_to ?h _ = _ =>
          etrans; [ exact H | lia ]
      end.
  - intros s' [[Hen Hde] _]. cbn [length] in *.
    split; [ rewrite Hen | rewrite Hde ]; lia.
Qed.

Lemma notebook_requests :
  wp notebook (λ _, requests_are 1002 1002) (λ _ _, True) initial_state.
Proof.
  assert (requests_are 0 0 initial_state) as H0 by done.
  unfold notebook.
  repeat (eapply wp_cell;
          [ eapply cell_requests;
            [ repeat first [ apply list_elem_of_here
                           | apply list_elem_of_further ]
            | eassumption ]
          | intros ? ? ]).
  eapply wp_conseq;
    [ eapply cell_requests;
      [ repeat first [ apply list_elem_of_here | apply list_elem_of_further ]
      | eassumption ]
    | | done ].
  intros [] sf Hf. exact Hf.
Qed.

End Counting.

(** ** A failed call ends the run *)

Lemma failed_call_is_last `{RT : Runtime} pre c e post :
  trace run.1 = pre ++ (c, inl e) :: post →
  handled (c, inl e) ∨ (post = [] ∧ run.2 = inl e).
Proof.
  intros Htr.
  destruct (propagates_notebook initial_state) as (evs & Hevs & H).
  fold run in Hevs, H. cbn [trace initial_state app] in Hevs.
  rewrite Hevs in Htr. clear Hevs.
  assert (Forall handled evs → handled (c, inl e)) as Hin.
  { intros Hall. rewrite Forall_forall in Hall. apply Hall.
    rewrite Htr. apply elem_of_app. right. constructor. }
  destruct run.2 as [e0 | []]; [| left; by apply Hin ].
  destruct H as [H | (evs' & c0 & -> & H)]; [ left; by apply Hin |].
  clear Hin.
  destruct (list_snoc_cases post) as [-> | (post' & ev & ->)].
  - apply app_inj_tail in Htr as [-> [= -> ->]]. by right.
  - left. rewrite app_comm_cons, app_assoc in Htr.
    apply app_inj_tail in Htr as [-> _].
    rewrite Forall_forall in H. apply (H (c, inl e)).
    apply elem_of_app. right. constructor.
Qed.

(** ** Where a run goes on *)

Lemma bind_cell `{RT : Runtime} {A} (cell : M unit) (rest : M A) s0 s1 :
  cell s0 = (s1, inr tt) → (cell ;; rest) s0 = rest s1.
Proof. intros H. unfold bind. by rewrite H. Qed.

Lemma bind_cell_inv `{RT : Runtime} {A} (cell : M unit) (rest : M A) s0 s a :
  (cell ;; rest) s0 = (s, inr a) →
  ∃ s1, cell s0 = (s1, inr tt) ∧ rest s1 = (s, inr a).
Proof.
  unfold bind. destruct (cell s0) as [s1 [e | []]]; [ done |].
  intros H. by exists s1.
Qed.

Lemma bind_ret_tt `{RT : Runtime} (m : M unit) s : (m ;; ret tt) s = m s.
Proof. unfold bind, ret. by destruct (m s) as [s' [e | []]]. Qed.

Lemma wp_outcome `{RT : Runtime} {A} (m : M A) Q E s s' a :
  wp m Q E s → m s = (s', inr a) → Q a s'.
Proof. unfold wp. intros H Heq. by rewrite Heq in H. Qed.

Lemma propagates_grows `{RT : Runtime} {A} (m : M A) s :
  propagates m →
  wp m (λ _ s', ∃ evs, trace s' = trace s ++ evs)
       (λ _ s', ∃ evs, trace s' = trace s ++ evs) s.
Proof.
  intros Hm. destruct (Hm s) as (evs & Htr & _). unfold wp.
  destruct (m s) as [s' [e | a]]; by exists evs.
Qed.

Section Progress.

Context {RT : Runtime}.

Ltac propagation_steps :=
  repeat first
    [ apply propagates_ret | apply propagates_raise | apply propagates_lift
    | apply propagates_store | apply propagates_load
    | apply propagates_perform
    | apply propagates_for_in
    | apply propagates_bind; [| intros ? ]
    | match goal with
      | |- propagates (if ?b then _ else _) => destruct b
      | |- propagates (match ?v with _ => _ end) => destruct v
      end ].


Lemma propagates_after_deploy :
  propagates (cell_payloads ;; cell_invoke_english ;; cell_invoke_german ;;
              cell_predictor ;; cell_load_test ;; cell_teardown).
Proof.
  unfold cell_payloads, cell_invoke_english, cell_invoke_german,
    read_result, cell_predictor, cell_load_test, load_test_body,
    predict_english, predict_german, cell_teardown.
  propagation_steps.
Qed.



(** The deployment cell, from a state in which its inputs are bound: its
    first call is [create_model], with what the variables hold. *)
Lemma cell_deploy_first_call (tail : M unit) s c cfg r en de :
  vars s sm_client = Some c →
  vars s inferenceExecutionConfig = Some cfg →
  vars s role = Some r →
  vars s englishModel = Some en →
  vars s germanModel = Some de →
  propagates tail →
  wp (cell_deploy ;; tail)
    (λ _ s', ∃ x evs,
       trace s' = trace s ++
         (create_model c "multi-container-sentiment-model" cfg r [en; de], x)
           :: evs)
    (λ _ s', ∃ x evs,
       trace s' = trace s ++
         (create_model c "multi-container-sentiment-model" cfg r [en; de], x)
           :: evs)
    s.
Proof.
  destruct s as [g tr]. cbn [vars trace]. intros ? ? ? ? ? Htail.
  unfold cell_deploy. repeat wp_step plain_call;
    try (cbn [vars trace]; eexists _, _;
         rewrite <- ?app_assoc; cbn [app]; reflexivity).
  cbn beta.
  eapply wp_conseq; [ apply (propagates_grows _ _ Htail) | |];
    cbn [vars trace]; intros _ s' [evs ->]; eexists _, _;
    rewrite <- ?app_assoc; cbn [app]; reflexivity.
Qed.



(** A run whose first five cells have completed goes on with the deployment
    cell. *)
Lemma reach_deploy s :
  (cell_install ;; cell_version_check ;; cell_permissions ;; cell_image ;;
   cell_models) initial_state = (s, inr tt) →
  (∃ r rg img, at_deploy r rg img s) ∧
  run = (cell_deploy ;; cell_payloads ;; cell_invoke_english ;;
         cell_invoke_german ;; cell_predictor ;; cell_load_test ;;
         cell_teardown) s.
Proof.
  intros H.
  apply bind_cell_inv in H as (s1 & H1 & H).
  apply bind_cell_inv in H as (s2 & H2 & H).
  apply bind_cell_inv in H as (s3 & H3 & H).
  apply bind_cell_inv in H as (s4 & H4 & H5).
  split.
  - pose proof (wp_outcome _ _ _ _ _ _
                  (cell_install_expected _ at_start_initial) H1) as P1.
    pose proof (wp_outcome _ _ _ _ _ _
                  (cell_version_check_expected _ P1) H2) as P2.
    destruct (wp_outcome _ _ _ _ _ _ (cell_permissions_expected _ P2) H3)
      as (r & rg & P3).
    destruct (wp_outcome _ _ _ _ _ _ (cell_image_expected _ _ _ P3) H4)
      as (img & P4).
    exists r, rg, img.
    exact (wp_outcome _ _ _ _ _ _ (cell_models_expected _ _ _ _ P4) H5).
  - unfold run, notebook.
    by rewrite (bind_cell _ _ _ _ H1), (bind_cell _ _ _ _ H2),
         (bind_cell _ _ _ _ H3), (bind_cell _ _ _ _ H4),
         (bind_cell _ _ _ _ H5).
Qed.

End Progress.

(** * Properties of the notebook *)

(** C1. Every data-plane call of a run -- through the [sagemaker-runtime]
    client, through the predictor, or in the load-test loop -- carries the
    routing field [TargetContainerHostname], and its value is one of the
    container hostnames declared by the model created earlier in the run,
    which are ["englishModel"] and ["germanModel"]. *)
Theorem invocations_are_routed `{RT : Runtime} pre c r post t :
  trace run.1 = pre ++ (c, r) :: post →
  routing_field c = Some t →
  ∃ h, t = Some h ∧ h ∈ model_hostnames pre ∧
       model_hostnames pre = ["englishModel"; "germanModel"].
Proof.
  intros Htr Hrf.
  pose proof (trace_ok_elim _ _ _ _ _ _ run_trace_expected Htr) as Hexp.
  destruct c; try discriminate Hrf; hnf in Hexp;
    destruct Hexp as [Hd%deployed_hostnames [Hc | Hc]];
    unfold predict_call in Hc; cbn [routing_field] in Hrf;
    simplify_eq; rewrite Hd.
  - exists "englishModel". set_solver.
  - exists "germanModel". set_solver.
  - exists "englishModel". rewrite lookup_singleton_eq. set_solver.
  - exists "germanModel". rewrite lookup_singleton_eq. set_solver.
Qed.

Lemma invocations_are_routed_witness :
  ∃ h, Some "englishModel" = Some h ∧
       h ∈ model_hostnames (take 20 (trace (@run rt_invoke_fails).1)) ∧
       model_hostnames (take 20 (trace (@run rt_invoke_fails).1)) =
         ["englishModel"; "germanModel"].
Proof.
  apply (@invocations_are_routed rt_invoke_fails
           (take 20 (trace (@run rt_invoke_fails).1))
           (invoke_endpoint runtime_client "multi-container-sentiment-ep"
              "application/json" "application/json" (Some "englishModel")
              (sample_dumps english_payload_value))
           (inl ClientError) []).
  - vm_compute. reflexivity.
  - reflexivity.
Defined.

(** C2. The deployment cell makes exactly three calls, in this order: create
    model, create endpoint configuration, create endpoint.  The production
    variant of the configuration names the model
    ["multi-container-sentiment-model"] that the first call creates, and the
    endpoint names the configuration ["multi-container-sentiment-config"]
    that the second call creates.  (If a call raises, the calls made are the
    ones before it, in the same order.) *)
Theorem deployment_makes_three_calls `{RT : Runtime} s c cfg r en de :
  vars s sm_client = Some c →
  vars s inferenceExecutionConfig = Some cfg →
  vars s role = Some r →
  vars s englishModel = Some en →
  vars s germanModel = Some de →
  ∃ evs,
    trace (cell_deploy s).1 = trace s ++ evs ∧
    evs.*1 `prefix_of`
      [ create_model c "multi-container-sentiment-model" cfg r [en; de];
        create_endpoint_config c "multi-container-sentiment-config"
          [ {| VariantName := "AllTraffic";
               ModelName := "multi-container-sentiment-model";
               InitialInstanceCount := 1;
               InstanceType := "ml.c5.4xlarge" |} ];
        create_endpoint c "multi-container-sentiment-ep"
          "multi-container-sentiment-config" ] ∧
    ((cell_deploy s).2 = inr tt →
     evs.*1 =
      [ create_model c "multi-container-sentiment-model" cfg r [en; de];
        create_endpoint_config c "multi-container-sentiment-config"
          [ {| VariantName := "AllTraffic";
               ModelName := "multi-container-sentiment-model";
               InitialInstanceCount := 1;
               InstanceType := "ml.c5.4xlarge" |} ];
        create_endpoint c "multi-container-sentiment-ep"
          "multi-container-sentiment-config" ]).
Proof.
  intros H1 H2 H3 H4 H5.
  pose proof (cell_deploy_calls s c cfg r en de H1 H2 H3 H4 H5) as H.
  apply wp_result in H.
  destruct (cell_deploy s).2 as [e | []]; destruct H as (evs & Htr & Hevs);
    exists evs; (split; [ exact Htr |]).
  - split; [ exact Hevs | done ].
  - split; [ by rewrite Hevs | done ].
Qed.

Lemma deployment_makes_three_calls_witness :
  ∃ evs,
    trace (@cell_deploy rt_ok before_deploy).1 = trace before_deploy ++ evs ∧
    evs.*1 = deploy_calls sagemaker_client {| Mode := "Direct" |}
               (sample_answer get_execution_role)
               (english_container (sample_answer (retrieve_call VNone)))
               (german_container (sample_answer (retrieve_call VNone))).
Proof.
  assert (vars before_deploy sm_client = Some sagemaker_client) as H1
    by (vm_compute; reflexivity).
  assert (vars before_deploy inferenceExecutionConfig =
            Some {| Mode := "Direct" |}) as H2
    by (vm_compute; reflexivity).
  assert (vars before_deploy role = Some (sample_answer get_execution_role))
    as H3 by (vm_compute; reflexivity).
  assert (vars before_deploy englishModel =
            Some (english_container (sample_answer (retrieve_call VNone))))
    as H4 by (vm_compute; reflexivity).
  assert (vars before_deploy germanModel =
            Some (german_container (sample_answer (retrieve_call VNone))))
    as H5 by (vm_compute; reflexivity).
  destruct (@deployment_makes_three_calls rt_ok before_deploy _ _ _ _ _
              H1 H2 H3 H4 H5)
    as (evs & Htr & _ & Hdone).
  exists evs. split; [ exact Htr |]. apply Hdone. vm_compute. reflexivity.
Defined.

(** C3. The model a run creates bundles exactly two container descriptors,
    with hostnames ["englishModel"] and ["germanModel"]; both carry the same
    image reference, the one the image lookup returned; and the environment
    of each sets exactly [HF_MODEL_ID] (the English, resp. the German model)
    and [HF_TASK] (["text-classification"] for both). *)
Theorem model_bundles_two_containers `{RT : Runtime} pre self name cfg r cs x post :
  trace run.1 = pre ++ (create_model self name cfg r cs, x) :: post →
  ∃ rg img,
    retrievals pre = [(retrieve_call rg, inr img)] ∧
    cs = [ {| Image := img;
              ContainerHostname := "englishModel";
              Environment :=
                {[ "HF_MODEL_ID" := "distilbert-base-uncased-finetuned-sst-2-english";
                   "HF_TASK" := "text-classification" ]} |};
           {| Image := img;
              ContainerHostname := "germanModel";
              Environment :=
                {[ "HF_MODEL_ID" := "oliverguhr/german-sentiment-bert";
                   "HF_TASK" := "text-classification" ]} |} ] ∧
    Forall (λ c, dom (Environment c) =
                   ({[ "HF_MODEL_ID"; "HF_TASK" ]} : gset string)) cs.
Proof.
  intros Htr.
  pose proof (trace_ok_elim _ _ _ _ _ _ run_trace_expected Htr) as Hexp.
  hnf in Hexp. destruct Hexp as (r' & img & rg & Hc & Hr & _).
  unfold model_call in Hc. simplify_eq.
  exists rg, img. split; [ done |]. split; [ done |].
  repeat constructor; cbn [Environment english_container german_container];
    rewrite !dom_insert_L, dom_empty_L; set_solver.
Qed.

Lemma model_bundles_two_containers_witness :
  ∃ rg img,
    retrievals (take 14 (trace (@run rt_create_model_fails).1)) =
      [(retrieve_call rg, inr img)] ∧
    [ english_container (sample_answer (retrieve_call VNone));
      german_container (sample_answer (retrieve_call VNone)) ] =
    [ {| Image := img;
         ContainerHostname := "englishModel";
         Environment :=
           {[ "HF_MODEL_ID" := "distilbert-base-uncased-finetuned-sst-2-english";
              "HF_TASK" := "text-classification" ]} |};
      {| Image := img;
         ContainerHostname := "germanModel";
         Environment :=
           {[ "HF_MODEL_ID" := "oliverguhr/german-sentiment-bert";
              "HF_TASK" := "text-classification" ]} |} ] ∧
    Forall (λ c, dom (Environment c) =
                   ({[ "HF_MODEL_ID"; "HF_TASK" ]} : gset string))
      [ english_container (sample_answer (retrieve_call VNone));
        german_container (sample_answer (retrieve_call VNone)) ].
Proof.
  apply (@model_bundles_two_containers rt_create_model_fails
           (take 14 (trace (@run rt_create_model_fails).1))
           sagemaker_client "multi-container-sentiment-model"
           {| Mode := "Direct" |} (sample_answer get_execution_role)
           [ english_container (sample_answer (retrieve_call VNone));
             german_container (sample_answer (retrieve_call VNone)) ]
           (inl ClientError) []).
  vm_compute. reflexivity.
Defined.

(** C4. The execution mode is ["Direct"], one of the two modes ["Direct"]
    and ["Serial"]: the cell that defines the models leaves
    [{"Mode": "Direct"}] in [inferenceExecutionConfig]; the deployment cell
    hands whatever that variable holds to [create_model], unchanged, and
    this call is the first one it makes; so every model a run creates has
    the mode ["Direct"], and a run whose first five cells have completed
    does create the model with it.  On the platform this mode makes each
    container of the model addressable on its own: a request that names one
    of them is processed by that container alone, where the mode ["Serial"]
    would send it through both. *)
Theorem execution_mode_is_direct `{RT : Runtime} :
  (∀ s,
     (cell_models s).2 = inr tt →
     vars (cell_models s).1 inferenceExecutionConfig =
       Some {| Mode := "Direct" |}) ∧
  (∀ s c cfg r en de evs self name cfg' r' cs x,
     vars s sm_client = Some c →
     vars s inferenceExecutionConfig = Some cfg →
     vars s role = Some r →
     vars s englishModel = Some en →
     vars s germanModel = Some de →
     trace (cell_deploy s).1 = trace s ++ evs →
     (create_model self name cfg' r' cs, x) ∈ evs →
     cfg' = cfg) ∧
  (∀ pre self name cfg r cs x post,
     trace run.1 = pre ++ (create_model self name cfg r cs, x) :: post →
     cfg = {| Mode := "Direct" |} ∧ Mode cfg ∈ ["Direct"; "Serial"]) ∧
  (∀ s c cfg r en de,
     vars s sm_client = Some c →
     vars s inferenceExecutionConfig = Some cfg →
     vars s role = Some r →
     vars s englishModel = Some en →
     vars s germanModel = Some de →
     ∃ x evs,
       trace (cell_deploy s).1 =
         trace s ++
           (create_model c "multi-container-sentiment-model" cfg r [en; de], x)
             :: evs) ∧
  (∀ s,
     (cell_install ;; cell_version_check ;; cell_permissions ;; cell_image ;;
      cell_models) initial_state = (s, inr tt) →
     vars s inferenceExecutionConfig = Some {| Mode := "Direct" |} ∧
     ∃ r img x evs,
       trace run.1 =
         trace s ++
           (create_model sagemaker_client "multi-container-sentiment-model"
              {| Mode := "Direct" |} r
              [english_container img; german_container img], x) :: evs) ∧
  (∀ pre self name cfg r cs x post,
     trace run.1 = pre ++ (create_model self name cfg r cs, x) :: post →
     (∀ h, h ∈ ContainerHostname <$> cs →
           Hosting.handlers cfg cs (Some h) = Some [h]) ∧
     (∀ t, Hosting.handlers {| Mode := "Serial" |} cs t =
             Some ["englishModel"; "germanModel"])).
Proof.
  split; [| split; [| split; [| split; [| split ] ] ] ].
  - intros [g tr] Hdone. cbn [vars] in *.
    destruct (g hf_inference_dlc) as [img |] eqn:Himg.
    + assert (wp cell_models
                (λ _ s', vars s' inferenceExecutionConfig =
                           Some {| Mode := "Direct" |})
                (λ _ _, True) (State g tr)) as H
        by (unfold cell_models; repeat wp_step plain_call; lookup).
      apply wp_result in H. by rewrite Hdone in H.
    + unfold cell_models, bind, load in Hdone. cbn [vars] in Hdone.
      by rewrite Himg in Hdone.
  - intros s c cfg r en de evs self name cfg' r' cs x H1 H2 H3 H4 H5 Htr Hin.
    pose proof (cell_deploy_calls s c cfg r en de H1 H2 H3 H4 H5) as H.
    apply wp_result in H.
    assert (∃ evs', trace (cell_deploy s).1 = trace s ++ evs' ∧
                    evs'.*1 `prefix_of` deploy_calls c cfg r en de)
      as (evs' & Htr' & [k Hk]).
    { destruct (cell_deploy s).2 as [e | []];
        destruct H as (evs' & ? & Hc); exists evs'; [ done |].
      split; [ done | by rewrite Hc ]. }
    rewrite Htr' in Htr. apply app_inv_head in Htr as <-.
    assert (create_model self name cfg' r' cs ∈ deploy_calls c cfg r en de)
      as Hcall.
    { rewrite Hk. apply elem_of_app. left.
      apply (list_elem_of_fmap_2 fst) in Hin. exact Hin. }
    unfold deploy_calls in Hcall.
    repeat (apply elem_of_cons in Hcall as [Hcall | Hcall]);
      try discriminate Hcall; [ by simplify_eq | by apply elem_of_nil in Hcall ].
  - intros pre self name cfg r cs x post Htr.
    pose proof (trace_ok_elim _ _ _ _ _ _ run_trace_expected Htr) as Hexp.
    hnf in Hexp. destruct Hexp as (r' & img & rg & Hc & _).
    unfold model_call in Hc. simplify_eq. split; [ done | set_solver ].
  - intros s c cfg r en de H1 H2 H3 H4 H5.
    pose proof (cell_deploy_first_call (ret tt) s c cfg r en de
                  H1 H2 H3 H4 H5 (propagates_ret tt)) as H.
    apply wp_result in H. rewrite bind_ret_tt in H.
    by destruct (cell_deploy s).2 as [e | []].
  - intros s Hs.
    destruct (reach_deploy s Hs) as [(r & rg & img & Hat) Hrun].
    destruct Hat as ((_ & _ & _ & Hrole & Hclient & _) & Hen & Hde & Hcfg).
    split; [ exact Hcfg |]. exists r, img.
    pose proof (cell_deploy_first_call _ s _ _ _ _ _
                  Hclient Hcfg Hrole Hen Hde propagates_after_deploy) as H.
    apply wp_result in H. rewrite <- Hrun in H.
    by destruct run.2 as [e | []].
  - intros pre self name cfg r cs x post Htr.
    pose proof (trace_ok_elim _ _ _ _ _ _ run_trace_expected Htr) as Hexp.
    hnf in Hexp. destruct Hexp as (r' & img & rg & Hc & _).
    unfold model_call in Hc. simplify_eq. unfold Hosting.handlers.
    cbn [Mode]. split.
    + intros h Hh. rewrite decide_True by done. by rewrite decide_True.
    + intros t. rewrite decide_False by done. by rewrite decide_True.
Qed.

Lemma execution_mode_is_direct_witness :
  ∃ r img x evs,
    trace (@run rt_ok).1 =
      trace before_deploy ++
        (create_model sagemaker_client "multi-container-sentiment-model"
           {| Mode := "Direct" |} r
           [english_container img; german_container img], x) :: evs.
Proof.
  assert ((@cell_install rt_ok ;; @cell_version_check rt_ok ;;
           @cell_permissions rt_ok ;; @cell_image rt_ok ;; cell_models)
            initial_state = (before_deploy, inr tt)) as Hs
    by (vm_compute; reflexivity).
  destruct (@execution_mode_is_direct rt_ok) as (_ & _ & _ & _ & H & _).
  exact (proj2 (H before_deploy Hs)).
Defined.

(** C5 (as amended).  The one failure handled locally is a [ValueError] of
    the default execution-role lookup: when [sagemaker.get_execution_role()]
    raises a [ValueError], the [except] clause runs, and it takes the role
    from the ARN of the IAM role named ["sagemaker_execution_role"].  Every
    other failure propagates unhandled: a failure of the role lookup that is
    not a [ValueError] leaves the [try] statement as it came, and in a run
    any other failed call is the last call made, its exception being the
    outcome of the run. *)
Theorem role_fallback_and_propagation `{RT : Runtime} :
  (∀ s r,
     respond (trace s) get_execution_role = inr r →
     resolve_role s =
       (State (assign role r (vars s))
          (trace s ++ [(get_execution_role, inr r)]), inr tt)) ∧
  (∀ s e,
     respond (trace s) get_execution_role = inl e →
     isinstance e "ValueError" = true →
     resolve_role s =
       role_fallback
         (State (vars s) (trace s ++ [(get_execution_role, inl e)]))) ∧
  (∀ s x v v' arn,
     respond (trace s) (boto3_client "iam") = inr x →
     respond (trace s ++ [(boto3_client "iam", inr x)])
       (get_role {| service_name := "iam" |} "sagemaker_execution_role") = inr v →
     subscript v "Role" = inr v' →
     subscript v' "Arn" = inr arn →
     role_fallback s =
       (State (assign role arn (assign iam {| service_name := "iam" |} (vars s)))
          ((trace s ++ [(boto3_client "iam", inr x)]) ++
           [(get_role {| service_name := "iam" |} "sagemaker_execution_role",
             inr v)]),
        inr tt)) ∧
  (∀ s e,
     respond (trace s) get_execution_role = inl e →
     isinstance e "ValueError" = false →
     resolve_role s =
       (State (vars s) (trace s ++ [(get_execution_role, inl e)]), inl e)) ∧
  (∀ pre c e post,
     trace run.1 = pre ++ (c, inl e) :: post →
     (c = get_execution_role ∧ isinstance e "ValueError" = true) ∨
     (post = [] ∧ run.2 = inl e)).
Proof.
  split; [| split; [| split; [| split ] ] ].
  - intros s r Hr. by rewrite resolve_role_eq, Hr.
  - intros s e Hr He. by rewrite resolve_role_eq, Hr, He.
  - intros s x v v' arn Hx Hv Hrole Harn.
    unfold role_fallback, bind, perform, store, load, lift. cbn [vars trace].
    rewrite Hx. cbn [vars trace]. rewrite lookup_assign_eq. cbn [vars trace].
    rewrite Hv, Hrole, Harn. done.
  - intros s e Hr He. by rewrite resolve_role_eq, Hr, He.
  - intros pre c e post Htr.
    destruct (propagates_notebook initial_state) as (evs & Hevs & H).
    fold run in Hevs, H. cbn [trace initial_state app] in Hevs.
    rewrite Hevs in Htr. clear Hevs.
    assert (Forall handled evs → handled (c, inl e)) as Hin.
    { intros Hall. rewrite Forall_forall in Hall. apply Hall.
      rewrite Htr. set_solver. }
    destruct run.2 as [e0 | []].
    + destruct H as [H | (evs' & c0 & -> & H)]; [ left; by apply Hin |].
      clear Hin.
      destruct (list_snoc_cases post) as [-> | (post' & ev & ->)].
      * apply app_inj_tail in Htr as [-> [= -> ->]]. by right.
      * left. rewrite app_comm_cons, app_assoc in Htr.
        apply app_inj_tail in Htr as [-> _].
        rewrite Forall_forall in H. apply (H (c, inl e)). set_solver.
    + left. by apply Hin.
Qed.

(** C5 without the restriction to [ValueError] does not hold.  Here the role
    lookup fails with a [ClientError]: the failed lookup is the last call of
    the run (no IAM role is looked up), no role is bound, and the run stops
    on that error. *)
Lemma role_lookup_failure_propagates :
  (@run rt_role_denied).2 = inl ClientError ∧
  last (trace (@run rt_role_denied).1) = Some (get_execution_role, inl ClientError) ∧
  vars (@run rt_role_denied).1 role = None.
Proof. vm_compute. done. Qed.

(** C6. The load test is one sequential loop of 1000 iterations; each
    iteration sends one request routed to ["englishModel"] and then one
    routed to ["germanModel"].  The calls are made one after the other, each
    answered before the next is made; a loop that completes has sent 1000
    requests to each of the two containers.  (A loop that stops on an
    exception has made a prefix of these calls.) *)
Theorem load_test_alternates `{RT : Runtime} s p en de :
  vars s predictor = Some p →
  vars s english_payload = Some en →
  vars s german_payload = Some de →
  ∃ evs,
    trace (cell_load_test s).1 = trace s ++ evs ∧
    answered (trace s) evs ∧
    evs.*1 `prefix_of`
      concat (replicate 1000
        [ predict p en {[ "TargetContainerHostname" := "englishModel" ]};
          predict p de {[ "TargetContainerHostname" := "germanModel" ]} ]) ∧
    ((cell_load_test s).2 = inr tt →
     evs.*1 =
       concat (replicate 1000
         [ predict p en {[ "TargetContainerHostname" := "englishModel" ]};
           predict p de {[ "TargetContainerHostname" := "germanModel" ]} ]) ∧
     requests_to "englishModel" evs.*1 = 1000 ∧
     requests_to "germanModel" evs.*1 = 1000).
Proof.
  intros Hp Hen Hde.
  pose proof (load_test_loop (range 1000) s p en de Hp Hen Hde) as H.
  apply wp_result in H. unfold cell_load_test.
  replace (length (range 1000)) with 1000 in H
    by (unfold range; by rewrite length_seq).
  fold (round p en de).
  destruct (for_in i (range 1000) load_test_body s).2 as [e | []];
    destruct H as (evs & Htr & Hans & Hevs); exists evs;
    (split; [ exact Htr |]); (split; [ exact Hans |]).
  - split; [ exact Hevs | done ].
  - split; [ by rewrite Hevs |]. intros _. split; [ exact Hevs |].
    rewrite Hevs. apply requests_to_rounds.
Qed.

Lemma load_test_alternates_witness :
  ∃ evs,
    trace (@cell_load_test rt_ok before_load_test).1 =
      trace before_load_test ++ evs ∧
    requests_to "englishModel" evs.*1 = 1000 ∧
    requests_to "germanModel" evs.*1 = 1000.
Proof.
  assert (vars before_load_test predictor = Some the_predictor) as H1
    by (vm_compute; reflexivity).
  assert (vars before_load_test english_payload = Some english_payload_value)
    as H2 by (vm_compute; reflexivity).
  assert (vars before_load_test german_payload = Some german_payload_value)
    as H3 by (vm_compute; reflexivity).
  destruct (@load_test_alternates rt_ok before_load_test _ _ _ H1 H2 H3)
    as (evs & Htr & _ & _ & Hdone).
  exists evs. split; [ exact Htr |]. apply Hdone. vm_compute. reflexivity.
Defined.

(** C7. A run that completes leaves none of the three resources it created:
    before its last two calls -- [delete_model()] and [delete_endpoint()] on
    the predictor -- the model, the endpoint configuration and the endpoint
    exist; after them none of the three does. *)
Theorem teardown_leaves_nothing `{RT : Runtime} σ :
  run.2 = inr tt →
  ∃ created x y,
    resource_events (trace run.1) =
      created ++ [ (delete_model the_predictor, inr x);
                   (delete_endpoint the_predictor, inr y) ] ∧
    (("multi-container-sentiment-model" ∈
        Cloud.models (Cloud.after σ created)) ∧
     is_Some (Cloud.endpoint_configs (Cloud.after σ created)
                !! "multi-container-sentiment-config") ∧
     is_Some (Cloud.endpoints (Cloud.after σ created)
                !! "multi-container-sentiment-ep")) ∧
    (("multi-container-sentiment-model" ∉
        Cloud.models (Cloud.after σ (trace run.1))) ∧
     Cloud.endpoint_configs (Cloud.after σ (trace run.1))
       !! "multi-container-sentiment-config" = None ∧
     Cloud.endpoints (Cloud.after σ (trace run.1))
       !! "multi-container-sentiment-ep" = None).
Proof.
  intros Hdone.
  pose proof (wp_result _ _ _ _ notebook_expected) as H. fold run in H.
  rewrite Hdone in H.
  destruct H as (_ & r & img & v1 & v2 & v3 & v4 & v5 & Hev).
  exists [ (model_call r img, inr v1); (config_call, inr v2);
           (endpoint_call, inr v3) ], v4, v5.
  split; [ exact Hev |].
  rewrite (cloud_after_resource_events σ (trace run.1)), Hev.
  unfold Cloud.after, model_call, config_call, endpoint_call, the_predictor.
  cbn [foldl app Cloud.effect Cloud.models Cloud.endpoint_configs
         Cloud.endpoints endpoint_name fmap list_fmap ModelName].
  split.
  - split; [ set_solver |]. by rewrite !lookup_insert_eq.
  - rewrite !lookup_insert_eq.
    cbn [Cloud.models Cloud.endpoint_configs Cloud.endpoints].
    rewrite !lookup_insert_eq.
    cbn [Cloud.models Cloud.endpoint_configs Cloud.endpoints].
    rewrite !lookup_delete_eq. split; [| done ].
    intros [_ Hn]%elem_of_difference. apply Hn.
    apply elem_of_list_to_set. constructor.
Qed.

Lemma teardown_leaves_nothing_witness :
  ∃ created x y,
    resource_events (trace (@run rt_ok).1) =
      created ++ [ (delete_model the_predictor, inr x);
                   (delete_endpoint the_predictor, inr y) ] ∧
    (("multi-container-sentiment-model" ∈
        Cloud.models (Cloud.after Cloud.empty created)) ∧
     is_Some (Cloud.endpoint_configs (Cloud.after Cloud.empty created)
                !! "multi-container-sentiment-config") ∧
     is_Some (Cloud.endpoints (Cloud.after Cloud.empty created)
                !! "multi-container-sentiment-ep")) ∧
    (("multi-container-sentiment-model" ∉
        Cloud.models (Cloud.after Cloud.empty (trace (@run rt_ok).1))) ∧
     Cloud.endpoint_configs (Cloud.after Cloud.empty (trace (@run rt_ok).1))
       !! "multi-container-sentiment-config" = None ∧
     Cloud.endpoints (Cloud.after Cloud.empty (trace (@run rt_ok).1))
       !! "multi-container-sentiment-ep" = None).
Proof.
  apply (@teardown_leaves_nothing rt_ok Cloud.empty).
  vm_compute. reflexivity.
Defined.

(** C8. The version check compares [sagemaker.__version__] with ["2.75.0"]
    as strings: the cell returns normally if and only if the version string
    is at least ["2.75.0"] in the lexicographic order of strings, and raises
    [AssertionError] otherwise; when it raises after the install cell, the
    run stops there.  String order is not version order: ["2.100.0"], the
    way version 2.100.0 is written, is a later version than 2.75.0 and does
    not pass. *)
Theorem version_check_is_lexicographic `{RT : Runtime} s x v :
  respond (trace s) (import_module "sagemaker") = inr x →
  respond (trace s ++ [(import_module "sagemaker", inr x)]) sagemaker_version
    = inr (VStr v) →
  ((cell_version_check s).2 = inr tt ↔ String.leb "2.75.0" v = true) ∧
  ((cell_version_check s).2 = inl AssertionError ↔ String.leb "2.75.0" v = false) ∧
  (cell_install initial_state = (s, inr tt) →
   String.leb "2.75.0" v = false →
   run.2 = inl AssertionError ∧
   trace run.1 = trace s ++ [ (import_module "sagemaker", inr x);
                              (sagemaker_version, inr (VStr v)) ]) ∧
  (v = "2.100.0" →
   v = version_string [2; 100; 0] ∧
   version_le [2; 75; 0] [2; 100; 0] = true ∧
   (cell_version_check s).2 = inl AssertionError).
Proof.
  intros Hx Hv.
  assert (cell_version_check s =
            (State (vars s)
               (trace s ++ [ (import_module "sagemaker", inr x);
                             (sagemaker_version, inr (VStr v)) ]),
             if String.leb "2.75.0" v then inr tt else inl AssertionError))
    as Hcell.
  { unfold cell_version_check, bind, perform, lift, py_ge. cbn [vars trace].
    rewrite Hx. cbn [vars trace]. rewrite Hv. cbn [vars trace].
    rewrite <- app_assoc. by destruct (String.leb "2.75.0" v). }
  rewrite Hcell. cbn [snd].
  split; [| split; [| split ] ].
  - by destruct (String.leb "2.75.0" v).
  - by destruct (String.leb "2.75.0" v).
  - intros Hinstall Hlt.
    assert (run = ((cell_version_check s).1, inl AssertionError)) as ->.
    { unfold run, notebook. unfold bind at 1. rewrite Hinstall.
      unfold bind at 1. by rewrite Hcell, Hlt. }
    by rewrite Hcell.
  - intros ->. done.
Qed.

Lemma version_check_is_lexicographic_witness :
  ((@cell_version_check rt_version_2_100
      (@cell_install rt_version_2_100 initial_state).1).2 = inr tt ↔
   String.leb "2.75.0" "2.100.0" = true) ∧
  (@cell_version_check rt_version_2_100
     (@cell_install rt_version_2_100 initial_state).1).2 = inl AssertionError ∧
  (@run rt_version_2_100).2 = inl AssertionError.
Proof.
  destruct (@version_check_is_lexicographic rt_version_2_100
              (@cell_install rt_version_2_100 initial_state).1
              VNone "2.100.0" eq_refl eq_refl)
    as (Hiff & _ & Hrun & Hexample).
  split; [ exact Hiff |]. split.
  - by apply Hexample.
  - by apply Hrun.
Defined.



(** C10. The payload of a data-plane call is determined by its target:
    every call of a run routed to ["englishModel"] carries the English
    payload and every call routed to ["germanModel"] the German one, whether
    made through [boto3], through the predictor, or in the load test.  The
    two payload variables are assigned by the payload cell, and no later
    cell changes what they hold. *)
Theorem payloads_are_fixed `{RT : Runtime} :
  (∀ pre c x post,
     trace run.1 = pre ++ (c, x) :: post →
     (routing_field c = Some (Some "englishModel") →
      carries c english_payload_value) ∧
     (routing_field c = Some (Some "germanModel") →
      carries c german_payload_value)) ∧
  (∀ s,
     vars (cell_payloads s).1 english_payload = Some english_payload_value ∧
     vars (cell_payloads s).1 german_payload = Some german_payload_value) ∧
  (∀ cell,
     cell ∈ [ cell_invoke_english; cell_invoke_german; cell_predictor;
              cell_load_test; cell_teardown ] →
     keeps english_payload cell ∧ keeps german_payload cell).
Proof.
  split; [| split ].
  - intros pre c x post Htr.
    pose proof (trace_ok_elim _ _ _ _ _ _ run_trace_expected Htr) as Hexp.
    unfold carries.
    destruct c; try (split; discriminate); hnf in Hexp;
      destruct Hexp as [_ [Hc | Hc]];
      unfold predict_call in Hc; simplify_eq;
      cbn [routing_field payload_of]; rewrite ?lookup_singleton_eq;
      split; intros [=]; done.
  - intros s. split; reflexivity.
  - intros cell Hcell.
    repeat (apply elem_of_cons in Hcell as [-> | Hcell]);
      [ .. | by apply elem_of_nil in Hcell ];
      unfold cell_invoke_english, cell_invoke_german, read_result,
        cell_predictor, cell_load_test, load_test_body, predict_english,
        predict_german, cell_teardown;
      split; frame.
Qed.

(** ** The notebook on the sample runtimes *)

(** With every call answered, a run completes after 2033 calls; they end
    with the two teardown calls. *)
Example run_completes :
  (@run rt_ok).2 = inr tt ∧
  length (trace (@run rt_ok).1) = 2033 ∧
  (drop 2031 (trace (@run rt_ok).1)).*1 =
    [delete_model the_predictor; delete_endpoint the_predictor].
Proof. vm_compute. done. Qed.

(** When the role lookup raises a [ValueError], the run goes on, and the
    model is created with the ARN of the IAM role. *)
Example run_with_fallback :
  (@run rt_not_a_role).2 = inr tt ∧
  (take 3 (drop 7 (trace (@run rt_not_a_role).1))).*1 =
    [ get_execution_role; boto3_client "iam";
      get_role {| service_name := "iam" |} "sagemaker_execution_role" ] ∧
  fst <$> trace (@run rt_not_a_role).1 !! 16 =
    Some (model_call
            (VStr "arn:aws:iam::000000000000:role/sagemaker_execution_role")
            (sample_answer (retrieve_call VNone))).
Proof. vm_compute. done. Qed.

(** * Further properties of the notebook *)

(** X1. The execution role a run hands to [create_model] is what the role lookup
    returned earlier in the run or, after a [ValueError] of that lookup, the ARN
    found under ['Role']['Arn'] in the answer of the IAM lookup of
    ["sagemaker_execution_role"]. *)
Theorem model_role_comes_from_a_lookup `{RT : Runtime}
    pre self name cfg r cs x post :
  trace run.1 = pre ++ (create_model self name cfg r cs, x) :: post →
  (get_execution_role, inr r) ∈ pre ∨
  ∃ e v v',
    (get_execution_role, inl e) ∈ pre ∧ isinstance e "ValueError" = true ∧
    (get_role {| service_name := "iam" |} "sagemaker_execution_role", inr v)
      ∈ pre ∧
    subscript v "Role" = inr v' ∧ subscript v' "Arn" = inr r.
Proof.
  intros Htr.
  pose proof (trace_ok_elim _ _ _ _ _ _ run_trace_provenance Htr) as [Hr _].
  destruct Hr as [Hr | (v & v' & Hin & Hrole & Harn)]; [ by left | right ].
  pose proof Hin as Hin'.
  apply list_elem_of_split in Hin' as (p1 & p2 & Hpre).
  rewrite (elem_of_prefix_of_split _ _ _ _ _ _ Hpre) in Htr.
  pose proof (trace_ok_elim _ _ _ _ _ _ run_trace_provenance Htr)
    as (_ & _ & e & He & Hval).
  exists e, v, v'. split; [| done ].
  rewrite Hpre. apply elem_of_app. by left.
Qed.

Lemma model_role_comes_from_a_lookup_witness :
  (get_execution_role,
   inr (VStr "arn:aws:iam::000000000000:role/sagemaker_execution_role"))
    ∈ take 16 (trace (@run rt_fallback_model_fails).1) ∨
  ∃ e v v',
    (get_execution_role, inl e)
      ∈ take 16 (trace (@run rt_fallback_model_fails).1) ∧
    isinstance e "ValueError" = true ∧
    (get_role {| service_name := "iam" |} "sagemaker_execution_role", inr v)
      ∈ take 16 (trace (@run rt_fallback_model_fails).1) ∧
    subscript v "Role" = inr v' ∧
    subscript v' "Arn" =
      inr (VStr "arn:aws:iam::000000000000:role/sagemaker_execution_role").
Proof.
  apply (@model_role_comes_from_a_lookup rt_fallback_model_fails
           (take 16 (trace (@run rt_fallback_model_fails).1))
           sagemaker_client "multi-container-sentiment-model"
           {| Mode := "Direct" |}
           (VStr "arn:aws:iam::000000000000:role/sagemaker_execution_role")
           [ english_container (sample_answer (retrieve_call VNone));
             german_container (sample_answer (retrieve_call VNone)) ]
           (inl ClientError) []).
  vm_compute. reflexivity.
Defined.

(** X2. The IAM role is looked up only in a run whose role lookup has raised a
    [ValueError] before, only through the ["iam"] client, and only under the
    name ["sagemaker_execution_role"]. *)
Theorem iam_role_is_read_only_after_a_value_error `{RT : Runtime}
    pre self name x post :
  trace run.1 = pre ++ (get_role self name, x) :: post →
  self = {| service_name := "iam" |} ∧ name = "sagemaker_execution_role" ∧
  ∃ e, (get_execution_role, inl e) ∈ pre ∧ isinstance e "ValueError" = true.
Proof.
  intros Htr.
  exact (trace_ok_elim _ _ _ _ _ _ run_trace_provenance Htr).
Qed.

Lemma iam_role_is_read_only_after_a_value_error_witness :
  {| service_name := "iam" |} = {| service_name := "iam" |} ∧
  "sagemaker_execution_role" = "sagemaker_execution_role" ∧
  ∃ e, (get_execution_role, inl e)
         ∈ take 9 (trace (@run rt_fallback_model_fails).1) ∧
       isinstance e "ValueError" = true.
Proof.
  apply (@iam_role_is_read_only_after_a_value_error rt_fallback_model_fails
           (take 9 (trace (@run rt_fallback_model_fails).1))
           {| service_name := "iam" |} "sagemaker_execution_role"
           (inr (sample_answer (get_role iam_client "")))
           (drop 10 (trace (@run rt_fallback_model_fails).1))).
  vm_compute. reflexivity.
Defined.

(** X3. The image is looked up for the region of the second session: the region
    handed to [image_uris.retrieve] is what [boto_region_name] answered for a
    session that was created with the bucket [default_bucket()] had answered for
    the first session. *)
Theorem image_is_resolved_for_the_session_region `{RT : Runtime}
    pre fw rg v sc bf py cv it x post :
  trace run.1 = pre ++ (image_uris_retrieve fw rg v sc bf py cv it, x) :: post →
  ∃ b h,
    (Session_default_bucket {| session_default_bucket := VNone |}, inr b)
      ∈ pre ∧
    (Session_new b, inr h) ∈ pre ∧
    (Session_boto_region_name {| session_default_bucket := b |}, inr rg) ∈ pre.
Proof.
  intros Htr.
  pose proof (trace_ok_elim _ _ _ _ _ _ run_trace_provenance Htr)
    as ([b] & Hrg & [h Hh] & Hb).
  by exists b, h.
Qed.

Lemma image_is_resolved_for_the_session_region_witness :
  ∃ b h,
    (Session_default_bucket {| session_default_bucket := VNone |}, inr b)
      ∈ take 13 (trace (@run rt_retrieve_fails).1) ∧
    (Session_new b, inr h) ∈ take 13 (trace (@run rt_retrieve_fails).1) ∧
    (Session_boto_region_name {| session_default_bucket := b |},
     inr (VStr "us-east-1")) ∈ take 13 (trace (@run rt_retrieve_fails).1).
Proof.
  apply (@image_is_resolved_for_the_session_region rt_retrieve_fails
           (take 13 (trace (@run rt_retrieve_fails).1))
           "huggingface" (VStr "us-east-1") "4.12.3" "inference"
           "pytorch1.9.1" "py38" "ubuntu20.04" "ml.c5.xlarge"
           (inl ClientError) []).
  vm_compute. reflexivity.
Defined.

(** X4. What a run reads is the body of the answer it just got: every [read()]
    is made on the ["Body"] of the answer of the call right before it, and that
    call is an [invoke_endpoint] that returned. *)
Theorem body_is_read_from_the_last_answer `{RT : Runtime} pre body x post :
  trace run.1 = pre ++ (StreamingBody_read body, x) :: post →
  ∃ pre' c r,
    pre = pre' ++ [(c, inr r)] ∧ is_invocation c = true ∧
    subscript r "Body" = inr body.
Proof.
  intros Htr.
  exact (trace_ok_elim _ _ _ _ _ _ run_trace_provenance Htr).
Qed.

Lemma body_is_read_from_the_last_answer_witness :
  ∃ pre' c r,
    take 21 (trace (@run rt_body_unreadable).1) = pre' ++ [(c, inr r)] ∧
    is_invocation c = true ∧
    subscript r "Body" = inr (VOther "StreamingBody").
Proof.
  apply (@body_is_read_from_the_last_answer rt_body_unreadable
           (take 21 (trace (@run rt_body_unreadable).1))
           (VOther "StreamingBody") (inl ClientError) []).
  vm_compute. reflexivity.
Defined.

(** X5. Every request, and every teardown call, of a run addresses the endpoint
    the run has created: its endpoint name is ["multi-container-sentiment-ep"],
    the name under which [create_endpoint] returned earlier in the run. *)
Theorem calls_address_the_created_endpoint `{RT : Runtime} pre c x post ep :
  trace run.1 = pre ++ (c, x) :: post →
  endpoint_of c = Some ep →
  ep = "multi-container-sentiment-ep" ∧
  ∃ self cfg v, (create_endpoint self ep cfg, inr v) ∈ pre.
Proof.
  intros Htr Hep.
  pose proof (trace_ok_elim _ _ _ _ _ _ run_trace_expected Htr) as Hexp.
  assert (deployed pre → ∃ self cfg v,
            (create_endpoint self "multi-container-sentiment-ep" cfg, inr v)
              ∈ pre) as Hcreated.
  { intros [v Hv]%deployed_created. by eexists _, _, v. }
  destruct c; try discriminate Hep; hnf in Hexp; cbn [endpoint_of] in Hep.
  - destruct Hexp as [Hd [Hc | Hc]]; simplify_eq; split; [ done | | done |];
      by apply Hcreated.
  - destruct Hexp as [Hd [Hc | Hc]]; unfold predict_call in Hc; simplify_eq;
      (split; [ done | by apply Hcreated ]).
  - destruct Hexp as [Hd ->]. simplify_eq. split; [ done | by apply Hcreated ].
  - destruct Hexp as (-> & r & img & v1 & v2 & v3 & v4 & Hev). simplify_eq.
    split; [ done |]. exists sagemaker_client, "multi-container-sentiment-config", v3.
    apply list_elem_of_In.
    apply (proj1 (List.filter_In (λ ev, is_creation ev.1 || is_teardown ev.1) _ _)).
    fold (resource_events pre). rewrite Hev. right. right. by left.
Qed.

Lemma calls_address_the_created_endpoint_witness :
  "multi-container-sentiment-ep" = "multi-container-sentiment-ep" ∧
  ∃ self cfg v,
    (create_endpoint self "multi-container-sentiment-ep" cfg, inr v)
      ∈ take 20 (trace (@run rt_invoke_fails).1).
Proof.
  apply (@calls_address_the_created_endpoint rt_invoke_fails
           (take 20 (trace (@run rt_invoke_fails).1))
           (invoke_endpoint runtime_client "multi-container-sentiment-ep"
              "application/json" "application/json" (Some "englishModel")
              (sample_dumps english_payload_value))
           (inl ClientError) []).
  - vm_compute. reflexivity.
  - reflexivity.
Defined.

(** X6. A request is sent only while the endpoint is deployed: when a run makes
    a data-plane call, the model, the endpoint configuration and the endpoint
    have been created, in this order and each successfully, and no teardown call
    has been made; on the account the three resources exist. *)
Theorem requests_are_sent_while_deployed `{RT : Runtime} σ pre c x post t :
  trace run.1 = pre ++ (c, x) :: post →
  routing_field c = Some t →
  (∃ r img v1 v2 v3,
     resource_events pre =
       [ (model_call r img, inr v1); (config_call, inr v2);
         (endpoint_call, inr v3) ]) ∧
  "multi-container-sentiment-model" ∈ Cloud.models (Cloud.after σ pre) ∧
  Cloud.endpoint_configs (Cloud.after σ pre) !! "multi-container-sentiment-config"
    = Some ["multi-container-sentiment-model"] ∧
  Cloud.endpoints (Cloud.after σ pre) !! "multi-container-sentiment-ep"
    = Some "multi-container-sentiment-config".
Proof.
  intros Htr Hrf.
  pose proof (trace_ok_elim _ _ _ _ _ _ run_trace_expected Htr) as Hexp.
  assert (deployed pre) as Hd
    by (destruct c; try discriminate Hrf; hnf in Hexp; apply Hexp).
  split; [ exact Hd | by apply cloud_after_deployed ].
Qed.

Lemma requests_are_sent_while_deployed_witness :
  (∃ r img v1 v2 v3,
     resource_events (take 20 (trace (@run rt_invoke_fails).1)) =
       [ (model_call r img, inr v1); (config_call, inr v2);
         (endpoint_call, inr v3) ]) ∧
  "multi-container-sentiment-model"
    ∈ Cloud.models
        (Cloud.after Cloud.empty (take 20 (trace (@run rt_invoke_fails).1))) ∧
  Cloud.endpoint_configs
    (Cloud.after Cloud.empty (take 20 (trace (@run rt_invoke_fails).1)))
    !! "multi-container-sentiment-config"
    = Some ["multi-container-sentiment-model"] ∧
  Cloud.endpoints
    (Cloud.after Cloud.empty (take 20 (trace (@run rt_invoke_fails).1)))
    !! "multi-container-sentiment-ep"
    = Some "multi-container-sentiment-config".
Proof.
  apply (@requests_are_sent_while_deployed rt_invoke_fails Cloud.empty
           (take 20 (trace (@run rt_invoke_fails).1))
           (invoke_endpoint runtime_client "multi-container-sentiment-ep"
              "application/json" "application/json" (Some "englishModel")
              (sample_dumps english_payload_value))
           (inl ClientError) [] (Some "englishModel")).
  - vm_compute. reflexivity.
  - reflexivity.
Defined.

(** X7. The control-plane calls of a run, whether it completes or stops, are an
    initial part of one fixed sequence: create the model, create the endpoint
    configuration, create the endpoint, delete the model, delete the endpoint.
    No resource is created twice, none is deleted before all three exist, and
    nothing is created after a deletion. *)
Theorem control_plane_calls_follow_the_lifecycle `{RT : Runtime} :
  ∃ r img,
    (resource_events (trace run.1)).*1 `prefix_of`
      [ model_call r img; config_call; endpoint_call;
        delete_model the_predictor; delete_endpoint the_predictor ].
Proof. apply resource_events_lifecycle, run_trace_expected. Qed.

(** X8. The teardown cell is reached only by a run in which nothing has raised:
    a run that stops on an exception either has made no teardown call at all, or
    has stopped on a teardown call, which raised that exception. *)
Theorem a_failed_run_tears_nothing_down `{RT : Runtime} e :
  run.2 = inl e →
  (∀ c r, (c, r) ∈ trace run.1 → is_teardown c = false) ∨
  (∃ pre c, trace run.1 = pre ++ [(c, inl e)] ∧ is_teardown c = true).
Proof.
  intros Hrun.
  pose proof (wp_result _ _ _ _ notebook_stopped_short) as H. fold run in H.
  rewrite Hrun in H. destruct H as [H | H]; [ left | by right ].
  intros c r Hin. exact (trace_ok_no_teardown _ _ _ H Hin).
Qed.

Lemma a_failed_run_tears_nothing_down_witness :
  (∀ c r, (c, r) ∈ trace (@run rt_invoke_fails).1 → is_teardown c = false) ∨
  (∃ pre c, trace (@run rt_invoke_fails).1 = pre ++ [(c, inl ClientError)] ∧
            is_teardown c = true).
Proof.
  apply (@a_failed_run_tears_nothing_down rt_invoke_fails ClientError).
  vm_compute. reflexivity.
Defined.

(** X9. A cell that stops on an exception has not assigned the variable its last
    assignment targets, since Python evaluates the right-hand side first: the
    variable holds what it held before the cell ran ([role] when no role could
    be resolved, [hf_inference_dlc] when the image lookup fails, [endpoint] when
    the deployment fails, [result] when a request or the decoding of its answer
    fails, [de_res] when a prediction fails). *)
Theorem a_failed_cell_binds_nothing `{RT : Runtime} cell x s e :
  (cell, x) ∈ [ (resolve_role, role); (cell_image, hf_inference_dlc);
                (cell_deploy, endpoint); (cell_invoke_english, result);
                (cell_invoke_german, result); (cell_predictor, de_res) ] →
  (cell s).2 = inl e →
  vars (cell s).1 x = vars s x.
Proof.
  intros Hcell He.
  pose proof (wp_result _ _ _ _ (failed_cell_target cell x s Hcell)) as H.
  by rewrite He in H.
Qed.

Lemma a_failed_cell_binds_nothing_witness :
  vars (@cell_invoke_german rt_no_body before_load_test).1 result =
    vars before_load_test result.
Proof.
  apply (@a_failed_cell_binds_nothing rt_no_body cell_invoke_german result
           before_load_test KeyError).
  - do 4 apply list_elem_of_further. apply list_elem_of_here.
  - vm_compute. reflexivity.
Defined.

(** X10. The cells that act on the account make no call when they are run before
    the cells that bind their inputs. The deployment cell evaluates all the
    arguments of [create_model] before the call: with [sm_client],
    [inferenceExecutionConfig], [role], [englishModel] or [germanModel] unbound
    it raises [NameError] and creates nothing. With [predictor] unbound, the
    load test raises [NameError] in its first iteration and sends no request,
    and the teardown cell raises [NameError] and deletes nothing. *)
Theorem cells_run_too_early_make_no_call `{RT : Runtime} s :
  (vars s sm_client = None ∨ vars s inferenceExecutionConfig = None ∨
   vars s role = None ∨ vars s englishModel = None ∨
   vars s germanModel = None →
   (cell_deploy s).2 = inl NameError ∧
   trace (cell_deploy s).1 = trace s) ∧
  (vars s predictor = None →
   (cell_load_test s).2 = inl NameError ∧
   trace (cell_load_test s).1 = trace s ∧
   vars (cell_load_test s).1 i = Some 0%nat) ∧
  (vars s predictor = None → cell_teardown s = (s, inl NameError)).
Proof.
  split; [| split ].
  - intros H. pose proof (wp_result _ _ _ _ (cell_deploy_unbound s H)) as Hwp.
    destruct (cell_deploy s).2 as [e | []]; [| done ].
    destruct Hwp as [-> Htr]. done.
  - destruct s as [g tr]. cbn [vars]. intros H.
    assert (cell_load_test (State g tr) =
              (State (assign i 0%nat g) tr, inl NameError)) as ->.
    { unfold cell_load_test, range.
      change (seq 0 1000) with (0%nat :: seq 1 999). cbn [for_in].
      unfold load_test_body, predict_english, bind, store, load.
      cbn [vars trace]. rewrite lookup_assign_ne by discriminate.
      by rewrite H. }
    cbn [fst snd vars trace]. by rewrite lookup_assign_eq.
  - destruct s as [g tr]. cbn [vars]. intros H.
    unfold cell_teardown, bind, load. cbn [vars]. by rewrite H.
Qed.

(** X11. A cell that sends a request with [boto3] and completes has decoded the
    answer it got: its last two calls are the request, routed to the cell's
    container, and the [read()] of the ["Body"] of the answer; the bytes read
    were decoded and parsed as JSON, and [result] holds the outcome. *)
Theorem result_is_the_decoded_answer `{RT : Runtime} cell host s :
  (cell, host) ∈ [ (cell_invoke_english, "englishModel");
                   (cell_invoke_german, "germanModel") ] →
  (cell s).2 = inr tt →
  ∃ pre c r body b text v,
    trace (cell s).1 =
      pre ++ [ (c, inr r); (StreamingBody_read body, inr (VBytes b)) ] ∧
    is_invocation c = true ∧ routing_field c = Some (Some host) ∧
    subscript r "Body" = inr body ∧
    bytes_decode b = inr text ∧ json_loads text = inr v ∧
    vars (cell s).1 response = Some r ∧ vars (cell s).1 result = Some v.
Proof.
  intros Hcell Hdone.
  pose proof (wp_result _ _ _ _ (invoke_cell_reads_back cell host s Hcell)) as H.
  by rewrite Hdone in H.
Qed.

Lemma result_is_the_decoded_answer_witness :
  ∃ pre c r body b text v,
    trace (@cell_invoke_english rt_ok before_load_test).1 =
      pre ++ [ (c, inr r); (StreamingBody_read body, inr (VBytes b)) ] ∧
    is_invocation c = true ∧ routing_field c = Some (Some "englishModel") ∧
    subscript r "Body" = inr body ∧
    @bytes_decode rt_ok b = inr text ∧ @json_loads rt_ok text = inr v ∧
    vars (@cell_invoke_english rt_ok before_load_test).1 response = Some r ∧
    vars (@cell_invoke_english rt_ok before_load_test).1 result = Some v.
Proof.
  apply (@result_is_the_decoded_answer rt_ok cell_invoke_english
           "englishModel" before_load_test).
  - apply list_elem_of_here.
  - vm_compute. reflexivity.
Defined.

(** X12. An answer without a usable ["Body"] ends the run: when
    [invoke_endpoint] returns an object [r] for which [r['Body']] raises (a
    [KeyError] for a dict without that key, a [TypeError] for an object that is
    not a dict), no other call is made -- nothing is read, and the teardown cell
    is not reached -- and the run stops on that exception. *)
Theorem answer_without_body_stops_the_run `{RT : Runtime} pre c r post e :
  trace run.1 = pre ++ (c, inr r) :: post →
  is_invocation c = true →
  subscript r "Body" = inl e →
  post = [] ∧ run.2 = inl e ∧ (e = KeyError ∨ e = TypeError).
Proof.
  intros Htr Hc Hbody.
  assert (∀ tr, Forall usable tr → (c, inr r) ∈ tr → False) as Hbad.
  { intros tr Hall Hin. rewrite Forall_forall in Hall.
    destruct (Hall _ Hin Hc) as [body Hb]. congruence. }
  assert (e = KeyError ∨ e = TypeError) as He.
  { unfold subscript in Hbody.
    destruct r; try (right; congruence).
    destruct (dict_get _ _); [ discriminate | left; congruence ]. }
  pose proof (wp_result _ _ _ _ notebook_answers_usable) as H. fold run in H.
  assert ((c, inr r) ∈ trace run.1) as Hin
    by (rewrite Htr; apply elem_of_app; right; constructor).
  destruct run.2 as [e' | []]; [| destruct (Hbad _ H Hin) ].
  destruct H as [H | (pre' & c' & r' & Htr' & Hpre' & Hc' & Hbody')];
    [ destruct (Hbad _ H Hin) |].
  rewrite Htr' in Htr.
  destruct (list_snoc_cases post) as [-> | (post' & ev & ->)].
  - apply app_inj_tail in Htr as [-> [= -> ->]].
    split; [ done |]. split; [ congruence | done ].
  - rewrite app_comm_cons, app_assoc in Htr.
    apply app_inj_tail in Htr as [-> _].
    destruct (Hbad _ Hpre'). apply elem_of_app. right. constructor.
Qed.

Lemma answer_without_body_stops_the_run_witness :
  @nil event = [] ∧ (@run rt_no_body).2 = inl KeyError ∧
  (KeyError = KeyError ∨ KeyError = TypeError).
Proof.
  apply (@answer_without_body_stops_the_run rt_no_body
           (take 20 (trace (@run rt_no_body).1))
           (invoke_endpoint runtime_client "multi-container-sentiment-ep"
              "application/json" "application/json" (Some "englishModel")
              (sample_dumps english_payload_value))
           (VDict []) [] KeyError).
  - vm_compute. reflexivity.
  - reflexivity.
  - reflexivity.
Defined.

(** X13. The version check, minor version by minor version. For an installed
    version [2.n] or [2.n.(...)] with [n] below 1000 and other than 75, the cell
    returns normally when [n] is 8, 9, from 76 to 99, or from 750 on, and raises
    [AssertionError] otherwise. So every release from 2.100 to 2.749, all later
    than 2.75.0, is rejected, while 2.8 and 2.9, both earlier than 2.75.0, are
    let through. *)
Theorem version_check_by_minor_version `{RT : Runtime} s x n rest :
  (n < 1000)%nat → n ≠ 75%nat →
  respond (trace s) (import_module "sagemaker") = inr x →
  respond (trace s ++ [(import_module "sagemaker", inr x)]) sagemaker_version
    = inr (VStr (version_string (2 :: n :: rest))) →
  (cell_version_check s).2 =
    (if minor_accepted n then inr tt else inl AssertionError) ∧
  ((100 ≤ n ≤ 749)%nat →
   version_le [2; 75; 0] (2 :: n :: rest) = true ∧
   (cell_version_check s).2 = inl AssertionError) ∧
  (n = 8%nat ∨ n = 9%nat →
   version_le [2; 75; 0] (2 :: n :: rest) = false ∧
   (cell_version_check s).2 = inr tt).
Proof.
  intros Hlt Hne Hx Hv.
  rewrite (cell_version_check_eq s x _ Hx Hv), leb_minor by done.
  cbn [snd]. split; [ done |]. split.
  - intros Hn. split.
    + cbn [version_le]. repeat case_decide; first [ lia | done ].
    + replace (minor_accepted n) with false; [ done |].
      symmetry. apply not_true_is_false. unfold minor_accepted.
      rewrite !orb_true_iff, andb_true_iff, !Nat.eqb_eq, !Nat.leb_le. lia.
  - intros Hn. split.
    + cbn [version_le]. repeat case_decide; first [ lia | done ].
    + by destruct Hn as [-> | ->].
Qed.

Lemma version_check_by_minor_version_witness :
  version_le [2; 75; 0] [2; 100; 0] = true ∧
  (@cell_version_check rt_version_2_100
     (@cell_install rt_version_2_100 initial_state).1).2 = inl AssertionError.
Proof.
  assert (100 < 1000)%nat as H1 by lia.
  assert (100 ≠ 75)%nat as H2 by lia.
  assert (100 ≤ 100 ≤ 749)%nat as H3 by lia.
  destruct (@version_check_by_minor_version rt_version_2_100
              (@cell_install rt_version_2_100 initial_state).1
              VNone 100%nat [0%nat] H1 H2 eq_refl eq_refl)
    as (_ & Hlate & _).
  exact (Hlate H3).
Defined.

(** X14. The load test and the teardown change no variable of the notebook,
    except the loop counter: every variable other than [i] holds after the load
    test what it held before, the teardown cell changes none at all, and a load
    test that completes leaves 999 in [i]. *)
Theorem load_test_changes_only_its_counter `{RT : Runtime} :
  (∀ x, x ≠ i → keeps x cell_load_test) ∧
  (∀ x, keeps x cell_teardown) ∧
  (∀ s, (cell_load_test s).2 = inr tt →
        vars (cell_load_test s).1 i = Some 999%nat).
Proof.
  split; [| split ].
  - intros x Hx.
    destruct x; try done;
      unfold cell_load_test, load_test_body, predict_english, predict_german;
      frame.
  - intros x. unfold cell_teardown. frame.
  - intros s Hdone. unfold cell_load_test in *.
    rewrite for_in_last; [ | | done | done ].
    + vm_compute. reflexivity.
    + unfold load_test_body, predict_english, predict_german. frame.
Qed.

(** X15. A run that completes has sent 1002 requests to each of the two
    containers: one with [boto3], one with the predictor, and 1000 in the load
    test. *)
Theorem a_completed_run_sends_1002_requests_each `{RT : Runtime} :
  run.2 = inr tt →
  requests_to "englishModel" (trace run.1).*1 = 1002%nat ∧
  requests_to "germanModel" (trace run.1).*1 = 1002%nat.
Proof.
  intros Hdone.
  pose proof (wp_result _ _ _ _ notebook_requests) as H. fold run in H.
  by rewrite Hdone in H.
Qed.

Lemma a_completed_run_sends_1002_requests_each_witness :
  requests_to "englishModel" (trace (@run rt_ok).1).*1 = 1002%nat ∧
  requests_to "germanModel" (trace (@run rt_ok).1).*1 = 1002%nat.
Proof.
  apply (@a_completed_run_sends_1002_requests_each rt_ok).
  vm_compute. reflexivity.
Defined.

(** X16. A request that fails strands the endpoint: the failed request is the
    last call of the run, the run stops on its exception without reaching the
    teardown cell, and the model, the endpoint configuration and the endpoint
    are still on the account when the run has stopped. *)
Theorem a_failed_request_leaves_the_endpoint_running `{RT : Runtime}
    σ pre c e post t :
  trace run.1 = pre ++ (c, inl e) :: post →
  routing_field c = Some t →
  post = [] ∧ run.2 = inl e ∧
  "multi-container-sentiment-model"
    ∈ Cloud.models (Cloud.after σ (trace run.1)) ∧
  Cloud.endpoint_configs (Cloud.after σ (trace run.1))
    !! "multi-container-sentiment-config"
    = Some ["multi-container-sentiment-model"] ∧
  Cloud.endpoints (Cloud.after σ (trace run.1))
    !! "multi-container-sentiment-ep"
    = Some "multi-container-sentiment-config".
Proof.
  intros Htr Hrf.
  pose proof (trace_ok_elim _ _ _ _ _ _ run_trace_expected Htr) as Hexp.
  destruct (failed_call_is_last _ _ _ _ Htr) as [[-> _] | [-> Hrun]];
    [ discriminate Hrf |].
  split; [ done |]. split; [ done |].
  rewrite Htr. apply cloud_after_deployed, deployed_snoc.
  - by destruct c.
  - destruct c; try discriminate Hrf; hnf in Hexp; apply Hexp.
Qed.

Lemma a_failed_request_leaves_the_endpoint_running_witness :
  @nil event = [] ∧ (@run rt_invoke_fails).2 = inl ClientError ∧
  "multi-container-sentiment-model"
    ∈ Cloud.models (Cloud.after Cloud.empty (trace (@run rt_invoke_fails).1)) ∧
  Cloud.endpoint_configs
    (Cloud.after Cloud.empty (trace (@run rt_invoke_fails).1))
    !! "multi-container-sentiment-config"
    = Some ["multi-container-sentiment-model"] ∧
  Cloud.endpoints (Cloud.after Cloud.empty (trace (@run rt_invoke_fails).1))
    !! "multi-container-sentiment-ep"
    = Some "multi-container-sentiment-config".
Proof.
  apply (@a_failed_request_leaves_the_endpoint_running rt_invoke_fails
           Cloud.empty (take 20 (trace (@run rt_invoke_fails).1))
           (invoke_endpoint runtime_client "multi-container-sentiment-ep"
              "application/json" "application/json" (Some "englishModel")
              (sample_dumps english_payload_value))
           ClientError [] (Some "englishModel")).
  - vm_compute. reflexivity.
  - reflexivity.
Defined.
